(** * sdc.rabbit.consumers: a shallow embedding and its properties

    The consumer classes of [sdc/rabbit/consumers.py] ([AsyncConsumer],
    [TornadoConsumer], [MessageConsumer]) are embedded as functions in a
    small state / exception / trace monad.  Every call that leaves the
    process (pika, [time.sleep], the logger, the quarantine publisher, the
    processing callback) appends an [effect] to the trace, so that the
    properties below are statements about the sequence of calls a method
    makes. *)

From stdpp Require Import base option list gmap strings.
From Stdlib Require Import ZArith Lia.

Local Open Scope Z_scope.

(** ** Python values and exceptions *)

(** The values that occur as [tx_id] and in message headers. *)
Inductive pyval :=
| PNone
| PStr (s : string)
| PInt (n : Z)
| PBool (b : bool).

(** The exception classes named by the module.  [Exception] is the root:
    every exception of the model is an instance of it ([KeyboardInterrupt]
    and [SystemExit], which are not, end the process and are not values
    of [exn]). *)
Inductive exn_class :=
| Exception
| TypeError
| KeyError
| IndexError
| ValueError
| AttributeError
| ZeroDivisionError
| AMQPConnectionError
| BadMessageError
| RetryableError
| PublishMessageError
| QuarantinableError
| OtherError (name : string).

Global Instance exn_class_eq_dec : EqDecision exn_class.
Proof. solve_decision. Defined.

(** An exception instance is described by the classes of its type's
    method resolution order, [Exception] left implicit: that is all an
    [except] clause looks at. *)
Abbreviation exn := (list exn_class).

Definition isinstance (e : exn) (c : exn_class) : bool :=
  match c with
  | Exception => true
  | _ => bool_decide (c ∈ e)
  end.

(** [except (C1, C2, ...)]: the exception is an instance of one of them. *)
Definition matches (e : exn) (cs : list exn_class) : bool :=
  existsb (isinstance e) cs.

(** Modelled from the spec: [sdc/rabbit/exceptions.py] is imported by the
    module and declares the four error kinds of the taxonomy
    (BadMessageError, RetryableError, PublishMessageError,
    QuarantinableError).  They are taken as unrelated classes deriving
    directly from [Exception], so that [raise C] builds an instance of [C]
    and of no other named class. *)
Definition new_exn (c : exn_class) : exn := [c].

(** ** Effects *)

Inductive conn_adapter := SelectConnection | TornadoConnection.

(** Handles given out by pika. *)
Definition connection := Z.
Definition channel := Z.

Inductive effect :=
| ELog (level msg : string)
| ESleep (secs : Z)
| ENewConnection (adapter : conn_adapter) (url : string)
| EConnectionChannel (conn : connection)
| EBasicAck (ch : channel) (delivery_tag : Z)
| EBasicNack (ch : channel) (delivery_tag : Z)
| EBasicReject (ch : channel) (delivery_tag : Z) (requeue : bool)
| EProcess (text : list Z) (tx_id : pyval)
| EPublishMessage (body : list Byte.byte) (headers : gmap string pyval).

Definition trace := list effect.

(** ** The monad: state, exceptions, trace *)

Inductive result (A : Type) :=
| Ok (a : A)
| Raise (e : exn).
Arguments Ok {A} a.
Arguments Raise {A} e.

Definition M (S A : Type) : Type := S → trace * S * result A.

Definition ret {S A} (a : A) : M S A := fun s => ([], s, Ok a).

Definition bind {S A B} (m : M S A) (f : A → M S B) : M S B :=
  fun s =>
    match m s with
    | (t1, s1, Ok a) =>
        match f a s1 with
        | (t2, s2, r) => (t1 ++ t2, s2, r)
        end
    | (t1, s1, Raise e) => (t1, s1, Raise e)
    end.

Definition raise {S A} (e : exn) : M S A := fun s => ([], s, Raise e).
Definition emit {S} (x : effect) : M S unit := fun s => ([x], s, Ok tt).
Definition get {S} : M S S := fun s => ([], s, Ok s).
Definition modify {S} (f : S → S) : M S unit := fun s => ([], f s, Ok tt).

Declare Scope py_scope.
Delimit Scope py_scope with py.
Notation "x <- m ;; k" := (bind m (fun x => k))
  (at level 100, m at next level, right associativity) : py_scope.
Notation "m ;; k" := (bind m (fun _ => k))
  (at level 100, right associativity) : py_scope.
Local Open Scope py_scope.

(** [try: body  except cs1: h1  except cs2: h2 ...]: the first clause
    that matches handles the exception, in the state the body left; an
    exception raised by a handler is not offered to the later clauses. *)
Fixpoint select_handler {S A} (e : exn)
    (handlers : list (list exn_class * M S A)) : option (M S A) :=
  match handlers with
  | [] => None
  | (cs, h) :: rest => if matches e cs then Some h else select_handler e rest
  end.

Definition try_except {S A} (body : M S A)
    (handlers : list (list exn_class * M S A)) : M S A :=
  fun s =>
    match body s with
    | (t1, s1, Ok a) => (t1, s1, Ok a)
    | (t1, s1, Raise e) =>
        match select_handler e handlers with
        | Some h =>
            match h s1 with
            | (t2, s2, r) => (t1 ++ t2, s2, r)
            end
        | None => (t1, s1, Raise e)
        end
    end.

(** Running a method of an embedded object as a method of the object
    that embeds it (the base-class part of a subclass instance). *)
Definition lift {S T A} (proj : T → S) (upd : S → T → T) (m : M S A) : M T A :=
  fun t =>
    match m (proj t) with
    | (tr, s', r) => (tr, upd s' t, r)
    end.

Definition logger {S} (level msg : string) : M S unit := emit (ELog level msg).

(** ** Python list indexing and bytes decoding *)

(** [l[i]]: a negative index counts from the end, an index outside
    [-len(l), len(l)) raises IndexError. *)
Definition py_index {A} (l : list A) (i : Z) : option A :=
  let n := Z.of_nat (length l) in
  if bool_decide (0 ≤ i < n) then l !! Z.to_nat i
  else if bool_decide (- n ≤ i < 0) then l !! Z.to_nat (n + i)
  else None.

Definition getitem {S A} (l : list A) (i : Z) : M S A :=
  match py_index l i with
  | Some x => ret x
  | None => raise [IndexError]
  end.

(** [a % b] on integers: the result has the sign of [b], as [Z.modulo];
    a zero divisor raises ZeroDivisionError. *)
Definition py_mod {S} (a b : Z) : M S Z :=
  if bool_decide (b = 0) then raise [ZeroDivisionError] else ret (a mod b).

(** [time.sleep(secs)] refuses a negative length. *)
Definition time_sleep {S} (secs : Z) : M S unit :=
  if bool_decide (secs < 0) then raise [ValueError] else emit (ESleep secs).

Module Utf8.

Definition byte_val (b : Byte.byte) : Z := Z.of_N (Byte.to_N b).

Definition between (lo hi v : Z) : bool := (lo <=? v) && (v <=? hi).

Definition cont (b : Byte.byte) : bool := between 0x80 0xBF (byte_val b).

(** Bounds on the byte that follows lead byte [v0]; they exclude
    overlong forms, surrogates and code points above U+10FFFF. *)
Definition second_lo (v0 : Z) : Z :=
  if v0 =? 0xE0 then 0xA0 else if v0 =? 0xF0 then 0x90 else 0x80.
Definition second_hi (v0 : Z) : Z :=
  if v0 =? 0xED then 0x9F else if v0 =? 0xF4 then 0x8F else 0xBF.
Definition second (v0 : Z) (b : Byte.byte) : bool :=
  between (second_lo v0) (second_hi v0) (byte_val b).

Definition low6 (b : Byte.byte) : Z := Z.land (byte_val b) 0x3F.

(** [bytes.decode("utf-8")] with the default strict error handler:
    the code points of the text, or [None] for UnicodeDecodeError. *)
Fixpoint decode (bs : list Byte.byte) : option (list Z) :=
  match bs with
  | [] => Some []
  | b0 :: r0 =>
      let v0 := byte_val b0 in
      if v0 <? 0x80 then cons v0 <$> decode r0
      else if between 0xC2 0xDF v0 then
        match r0 with
        | b1 :: r1 =>
            if cont b1
            then cons (Z.shiftl (Z.land v0 0x1F) 6 + low6 b1) <$> decode r1
            else None
        | _ => None
        end
      else if between 0xE0 0xEF v0 then
        match r0 with
        | b1 :: b2 :: r2 =>
            if second v0 b1 && cont b2
            then cons (Z.shiftl (Z.land v0 0x0F) 12
                       + Z.shiftl (low6 b1) 6 + low6 b2) <$> decode r2
            else None
        | _ => None
        end
      else if between 0xF0 0xF4 v0 then
        match r0 with
        | b1 :: b2 :: b3 :: r3 =>
            if second v0 b1 && cont b2 && cont b3
            then cons (Z.shiftl (Z.land v0 0x07) 18 + Z.shiftl (low6 b1) 12
                       + Z.shiftl (low6 b2) 6 + low6 b3) <$> decode r3
            else None
        | _ => None
        end
      else None
  end.

End Utf8.

Definition UnicodeDecodeError : exn :=
  [OtherError "UnicodeDecodeError"; OtherError "UnicodeError"; ValueError].

Definition bytes_decode_utf8 {S} (body : list Byte.byte) : M S (list Z) :=
  match Utf8.decode body with
  | Some text => ret text
  | None => raise UnicodeDecodeError
  end.

(** ** AsyncConsumer and TornadoConsumer *)

(** The class of an instance decides which [connect] a call to
    [self.connect()] reaches. *)
Inductive consumer_class := CAsyncConsumer | CTornadoConsumer | CMessageConsumer.

Record AsyncConsumer := {
  cls : consumer_class;
  _exchange : string;
  _exchange_type : string;
  _durable_queue : bool;
  _queue : string;
  _rabbit_urls : list string;
  _connection : option connection;
  _channel : option channel;
  _closing : bool;
  _consumer_tag : option string;
  _url : option string;
  _count : Z
}.

Definition set_url (u : option string) (self : AsyncConsumer) : AsyncConsumer :=
  {| cls := cls self; _exchange := _exchange self;
     _exchange_type := _exchange_type self;
     _durable_queue := _durable_queue self; _queue := _queue self;
     _rabbit_urls := _rabbit_urls self; _connection := _connection self;
     _channel := _channel self; _closing := _closing self;
     _consumer_tag := _consumer_tag self; _url := u; _count := _count self |}.

Definition set_count (n : Z) (self : AsyncConsumer) : AsyncConsumer :=
  {| cls := cls self; _exchange := _exchange self;
     _exchange_type := _exchange_type self;
     _durable_queue := _durable_queue self; _queue := _queue self;
     _rabbit_urls := _rabbit_urls self; _connection := _connection self;
     _channel := _channel self; _closing := _closing self;
     _consumer_tag := _consumer_tag self; _url := _url self; _count := n |}.

Definition set_connection (c : option connection) (self : AsyncConsumer)
    : AsyncConsumer :=
  {| cls := cls self; _exchange := _exchange self;
     _exchange_type := _exchange_type self;
     _durable_queue := _durable_queue self; _queue := _queue self;
     _rabbit_urls := _rabbit_urls self; _connection := c;
     _channel := _channel self; _closing := _closing self;
     _consumer_tag := _consumer_tag self; _url := _url self;
     _count := _count self |}.

(** [AsyncConsumer.__init__]: stores its arguments and initialises the
    private attributes; nothing is checked. *)
Definition AsyncConsumer_init (k : consumer_class) (durable_queue : bool)
    (exchange exchange_type rabbit_queue : string) (rabbit_urls : list string)
    : AsyncConsumer :=
  {| cls := k;
     _exchange := exchange;
     _exchange_type := exchange_type;
     _durable_queue := durable_queue;
     _queue := rabbit_queue;
     _rabbit_urls := rabbit_urls;
     _connection := None;
     _channel := None;
     _closing := false;
     _consumer_tag := None;
     _url := None;
     _count := 1 |}.

(** [_delay_before_reconnect]: sleep [_count] seconds, then count up. *)
Definition _delay_before_reconnect : M AsyncConsumer unit :=
  logger "info" "Sleeping before reconnect";;
  self <- get;;
  time_sleep (_count self);;
  modify (fun self => set_count (_count self + 1) self).

(** What building the pika connection object does: it returns the new
    connection, or raises. *)
Inductive new_connection_outcome :=
| Opened (c : connection)
| OpenRaises (e : exn).

(** The [while True] loop of [connect].  [script] lists what the
    successive constructor calls do; when it is used up the loop is
    inside the next constructor call, which has been issued and has not
    returned, and the model stops there with [None]. *)
Fixpoint connect_loop (adapter : conn_adapter) (no_of_servers : Z)
    (script : list new_connection_outcome) : M AsyncConsumer (option connection) :=
  self <- get;;
  r <- py_mod (_count self) no_of_servers;;
  let server_choice := r - 1 in
  url <- getitem (_rabbit_urls self) server_choice;;
  modify (set_url (Some url));;
  logger "info" "Connecting";;
  emit (ENewConnection adapter url);;
  match script with
  | [] => ret None
  | Opened c :: _ => ret (Some c)
  | OpenRaises e :: rest =>
      if isinstance e AMQPConnectionError then
        logger "exception" "Connection error";;
        _delay_before_reconnect;;
        connect_loop adapter no_of_servers rest
      else raise e
  end.

Definition connect_with (adapter : conn_adapter)
    (script : list new_connection_outcome) : M AsyncConsumer (option connection) :=
  self <- get;;
  let no_of_servers := Z.of_nat (length (_rabbit_urls self)) in
  connect_loop adapter no_of_servers script.

Definition AsyncConsumer_connect := connect_with SelectConnection.
Definition TornadoConsumer_connect := connect_with TornadoConnection.

(** [self.connect()]: [TornadoConsumer] overrides [connect], and
    [MessageConsumer] inherits the override. *)
Definition connect (script : list new_connection_outcome)
    : M AsyncConsumer (option connection) :=
  self <- get;;
  match cls self with
  | CAsyncConsumer => AsyncConsumer_connect script
  | CTornadoConsumer | CMessageConsumer => TornadoConsumer_connect script
  end.

Definition reconnect (script : list new_connection_outcome) : M AsyncConsumer unit :=
  _delay_before_reconnect;;
  logger "info" "Reconnecting";;
  self <- get;;
  if negb (_closing self) then
    c <- connect script;;
    match c with
    | Some c => modify (set_connection (Some c))
    | None => ret tt
    end
  else logger "info" "Connection is still closing, cannot reconnect".

Definition open_channel : M AsyncConsumer unit :=
  logger "info" "Creating a new channel";;
  self <- get;;
  match _connection self with
  | Some c => emit (EConnectionChannel c)
  | None => raise [AttributeError]
  end.

Definition on_connection_open : M AsyncConsumer unit :=
  logger "info" "Connection opened";;
  modify (set_count 1);;
  open_channel.

Definition on_connection_open_error (script : list new_connection_outcome)
    : M AsyncConsumer unit :=
  logger "error" "Connection open failed";;
  reconnect script.

(** [self._channel.m(...)]: with no channel the attribute lookup on
    None fails.  A call on a channel the consumer holds is taken to go
    through. *)
Definition the_channel : M AsyncConsumer channel :=
  self <- get;;
  match _channel self with
  | Some ch => ret ch
  | None => raise [AttributeError]
  end.

Definition acknowledge_message (delivery_tag : Z) : M AsyncConsumer unit :=
  logger "info" "Acknowledging message";;
  ch <- the_channel;;
  emit (EBasicAck ch delivery_tag).

Definition nack_message (delivery_tag : Z) : M AsyncConsumer unit :=
  logger "info" "Nacking message";;
  ch <- the_channel;;
  emit (EBasicNack ch delivery_tag).

Definition reject_message (delivery_tag : Z) (requeue : bool) : M AsyncConsumer unit :=
  logger "info" "Rejecting message";;
  ch <- the_channel;;
  emit (EBasicReject ch delivery_tag requeue).

(** ** MessageConsumer *)

Inductive call_outcome :=
| Returns
| Raises (e : exn).

(** The [process] argument: a callable taking the decoded text and the
    tx_id, or an object that cannot be called. *)
Inductive pyobj :=
| Callable (f : list Z → pyval → call_outcome)
| NotCallable.

Record MessageConsumer := {
  super : AsyncConsumer;
  process : pyobj;
  quarantine_publisher : list Byte.byte → gmap string pyval → call_outcome;
  check_tx_id : bool
}.

Definition set_super (a : AsyncConsumer) (self : MessageConsumer) : MessageConsumer :=
  {| super := a; process := process self;
     quarantine_publisher := quarantine_publisher self;
     check_tx_id := check_tx_id self |}.

(** An inherited method run on a [MessageConsumer]. *)
Definition inherited {A} (m : M AsyncConsumer A) : M MessageConsumer A :=
  lift super set_super m.

(** pika's [BasicProperties] and [Basic.Deliver], as far as read here. *)
Record BasicProperties := {
  headers : option (gmap string pyval);
  app_id : option string
}.

Record Deliver := { delivery_tag : Z }.

(** [MessageConsumer.__init__]: the only check is that [process] can be
    called. *)
Definition MessageConsumer_init (durable_queue : bool)
    (exchange exchange_type rabbit_queue : string) (rabbit_urls : list string)
    (publisher : list Byte.byte → gmap string pyval → call_outcome)
    (proc : pyobj) (check : bool) : result MessageConsumer :=
  match proc with
  | NotCallable => Raise [AttributeError]
  | Callable _ =>
      Ok {| super := AsyncConsumer_init CMessageConsumer durable_queue exchange
                       exchange_type rabbit_queue rabbit_urls;
            process := proc;
            quarantine_publisher := publisher;
            check_tx_id := check |}
  end.

(** [MessageConsumer.tx_id]: [properties.headers['tx_id']].  Subscripting
    None is a TypeError, a missing key a KeyError. *)
Definition tx_id {S} (properties : BasicProperties) : M S pyval :=
  match headers properties with
  | None => raise [TypeError]
  | Some h =>
      match h !! "tx_id" with
      | None => raise [KeyError; OtherError "LookupError"]
      | Some v =>
          logger "info" "Retrieved tx_id from message properties";;
          ret v
      end
  end.

(** [self.process(text, tx_id)]. *)
Definition call_process (text : list Z) (tx : pyval) : M MessageConsumer unit :=
  self <- get;;
  match process self with
  | NotCallable => raise [TypeError]
  | Callable f =>
      emit (EProcess text tx);;
      match f text tx with
      | Returns => ret tt
      | Raises e => raise e
      end
  end.

(** [self.quarantine_publisher.publish_message(body, headers=...)]. *)
Definition publish_message (body : list Byte.byte) (hdrs : gmap string pyval)
    : M MessageConsumer unit :=
  self <- get;;
  emit (EPublishMessage body hdrs);;
  match quarantine_publisher self body hdrs with
  | Returns => ret tt
  | Raises e => raise e
  end.

(** [MessageConsumer.on_message].  The first block yields [None] where
    the source returns early and the tx_id otherwise. *)
Definition on_message (basic_deliver : Deliver) (properties : BasicProperties)
    (body : list Byte.byte) : M MessageConsumer unit :=
  let tag := delivery_tag basic_deliver in
  self <- get;;
  checked <-
    (if check_tx_id self then
       try_except
         (tx <- tx_id properties;;
          logger "info" "Received message";;
          ret (Some tx))
         [ ([KeyError],
            inherited (reject_message tag false);;
            logger "exception" "Bad message properties - no tx_id";;
            ret None);
           ([TypeError],
            inherited (reject_message tag false);;
            logger "exception" "Bad message properties - no headers";;
            ret None) ]
     else
       logger "debug" "check_tx_id is False. Not checking tx_id for message.";;
       ret (Some PNone));;
  match checked with
  | None => ret tt
  | Some tx =>
      try_except
        (try_except
           (text <- bytes_decode_utf8 body;;
            call_process text tx)
           [ ([TypeError],
              logger "error" "Incorrect call to process method";;
              raise (new_exn QuarantinableError)) ];;
         inherited (acknowledge_message tag))
        [ ([QuarantinableError; BadMessageError],
           try_except
             (publish_message body {[ "tx_id" := tx ]};;
              inherited (reject_message tag false);;
              logger "exception" "Quarantinable error occured")
             [ ([PublishMessageError],
                logger "error" "Unable to publish message to quarantine queue. Rejecting message and requeuing.";;
                inherited (reject_message tag true)) ]);
          ([RetryableError],
           inherited (nack_message tag);;
           logger "exception" "Failed to process");
          ([Exception],
           inherited (nack_message tag);;
           logger "exception" "Unexpected exception occurred, failed to process") ]
  end.

(** ** Reading a trace *)

(** The terminal acknowledgment actions sent to the broker. *)
Definition is_broker_action (x : effect) : bool :=
  match x with
  | EBasicAck _ _ | EBasicNack _ _ | EBasicReject _ _ _ => true
  | _ => false
  end.

Definition is_publish (x : effect) : bool :=
  match x with EPublishMessage _ _ => true | _ => false end.

Definition is_process (x : effect) : bool :=
  match x with EProcess _ _ => true | _ => false end.

Definition is_nack (x : effect) : bool :=
  match x with EBasicNack _ _ => true | _ => false end.

Definition broker_actions (t : trace) : list effect := List.filter is_broker_action t.
Definition publishes (t : trace) : list effect := List.filter is_publish t.
Definition process_calls (t : trace) : list effect := List.filter is_process t.

(** The quarantine publishes and broker actions, in the order made. *)
Definition outgoing_calls (t : trace) : list effect :=
  List.filter (fun x => is_publish x || is_broker_action x) t.

(** The URLs of the connection attempts, in order. *)
Definition attempted_urls (t : trace) : list string :=
  omap (fun x => match x with ENewConnection _ u => Some u | _ => None end) t.

(** The retry loop seen from outside: connection attempts and sleeps. *)
Inductive retry_event :=
| Attempt
| Slept (secs : Z).

Definition retry_events (t : trace) : list retry_event :=
  omap (fun x => match x with
                 | ENewConnection _ _ => Some Attempt
                 | ESleep n => Some (Slept n)
                 | _ => None
                 end) t.

Definition trace_of {S A} (r : trace * S * result A) : trace := r.1.1.
Definition state_of {S A} (r : trace * S * result A) : S := r.1.2.
Definition result_of {S A} (r : trace * S * result A) : result A := r.2.

(** ** Vocabulary of the statements *)

(** The endpoint of the round whose counter is [counter]: Python's
    [urls[(counter % N) - 1]], index -1 being the last element, is
    [urls[(counter - 1) mod N]] ([py_index_server_choice] below). *)
Definition endpoint_at (urls : list string) (counter : Z) : option string :=
  urls !! Z.to_nat ((counter - 1) mod Z.of_nat (length urls)).

(** A constructor call that fails with an [AMQPConnectionError]. *)
Definition connection_error (o : new_connection_outcome) : bool :=
  match o with
  | OpenRaises e => isinstance e AMQPConnectionError
  | Opened _ => false
  end.

(** The adapter [self.connect()] builds for an instance of class [k]. *)
Definition class_adapter (k : consumer_class) : conn_adapter :=
  match k with
  | CAsyncConsumer => SelectConnection
  | CTornadoConsumer | CMessageConsumer => TornadoConnection
  end.

(** The tx_id [on_message] goes on with: the header when checking is
    on, None when it is off; no value when the delivery is malformed. *)
Definition delivery_tx_id (self : MessageConsumer) (properties : BasicProperties)
    : option pyval :=
  if check_tx_id self then headers properties ≫= (.!! "tx_id") else Some PNone.

(** What evaluating [self.process(body.decode("utf-8"), tx_id)] does. *)
Definition process_invocation (self : MessageConsumer) (body : list Byte.byte)
    (tx : pyval) : call_outcome :=
  match Utf8.decode body with
  | None => Raises UnicodeDecodeError
  | Some text =>
      match process self with
      | Callable f => f text tx
      | NotCallable => Raises [TypeError]
      end
  end.

(** The exceptions of the invocation that lead to quarantine. *)
Definition quarantinable (e : exn) : bool :=
  isinstance e TypeError || matches e [QuarantinableError; BadMessageError].

(** ** Sample objects *)

Definition two_urls_consumer : AsyncConsumer :=
  AsyncConsumer_init CAsyncConsumer true "ex" "topic" "q" ["amqp://a"; "amqp://b"].

Definition two_failures : list new_connection_outcome :=
  [OpenRaises [AMQPConnectionError]; OpenRaises [AMQPConnectionError]].

(** A consumer that has gone through channel setup. *)
Definition consuming (proc : pyobj)
    (publisher : list Byte.byte → gmap string pyval → call_outcome)
    : MessageConsumer :=
  {| super := {| cls := CMessageConsumer; _exchange := "ex";
                 _exchange_type := "topic"; _durable_queue := true;
                 _queue := "q"; _rabbit_urls := ["amqp://a"; "amqp://b"];
                 _connection := Some 1; _channel := Some 1; _closing := false;
                 _consumer_tag := Some "ctag1"; _url := Some "amqp://a";
                 _count := 1 |};
     process := proc;
     quarantine_publisher := publisher;
     check_tx_id := true |}.

Definition sample_delivery : Deliver := {| delivery_tag := 5 |}.

Definition sample_properties : BasicProperties :=
  {| headers := Some {[ "tx_id" := PStr "abc123" ]}; app_id := Some "svc" |}.

Definition no_headers : BasicProperties :=
  {| headers := None; app_id := Some "svc" |}.

(** b"valid" *)
Definition sample_body : list Byte.byte :=
  [Byte.x76; Byte.x61; Byte.x6c; Byte.x69; Byte.x64].

Definition sample_headers : gmap string pyval := {[ "tx_id" := PStr "abc123" ]}.

Definition returns_normally : pyobj := Callable (fun _ _ => Returns).
Definition raises (e : exn) : pyobj := Callable (fun _ _ => Raises e).
Definition publisher_up : list Byte.byte → gmap string pyval → call_outcome :=
  fun _ _ => Returns.
Definition publisher_down : list Byte.byte → gmap string pyval → call_outcome :=
  fun _ _ => Raises [PublishMessageError].

(** ** The rest of the life cycle *)

Definition set_channel (c : option channel) (self : AsyncConsumer) : AsyncConsumer :=
  {| cls := cls self; _exchange := _exchange self;
     _exchange_type := _exchange_type self;
     _durable_queue := _durable_queue self; _queue := _queue self;
     _rabbit_urls := _rabbit_urls self; _connection := _connection self;
     _channel := c; _closing := _closing self;
     _consumer_tag := _consumer_tag self; _url := _url self;
     _count := _count self |}.

Definition set_closing (b : bool) (self : AsyncConsumer) : AsyncConsumer :=
  {| cls := cls self; _exchange := _exchange self;
     _exchange_type := _exchange_type self;
     _durable_queue := _durable_queue self; _queue := _queue self;
     _rabbit_urls := _rabbit_urls self; _connection := _connection self;
     _channel := _channel self; _closing := b;
     _consumer_tag := _consumer_tag self; _url := _url self;
     _count := _count self |}.

Definition set_consumer_tag (t : option string) (self : AsyncConsumer)
    : AsyncConsumer :=
  {| cls := cls self; _exchange := _exchange self;
     _exchange_type := _exchange_type self;
     _durable_queue := _durable_queue self; _queue := _queue self;
     _rabbit_urls := _rabbit_urls self; _connection := _connection self;
     _channel := _channel self; _closing := _closing self;
     _consumer_tag := t; _url := _url self; _count := _count self |}.

(** [AsyncConsumer.on_message], the handler a plain [AsyncConsumer] or
    [TornadoConsumer] registers: log the message, acknowledge it. *)
Definition AsyncConsumer_on_message (basic_deliver : Deliver)
    (properties : BasicProperties) (body : list Byte.byte) : M AsyncConsumer unit :=
  logger "info" "Received message";;
  acknowledge_message (delivery_tag basic_deliver).

(** The pika calls of channel setup and shutdown.  The callback a call
    registers is the method the source passes: [on_channel_closed] for
    the close callback, [on_exchange_declareok], [on_queue_declareok]
    and [on_bindok] for the declarations, [on_consumer_cancelled] for
    the cancel callback, [on_message] for [basic_consume], [on_cancelok]
    for [basic_cancel], [reconnect] for [call_later]. *)
Inductive pika_call :=
| PChannelAddOnCloseCallback (ch : channel)
| PExchangeDeclare (ch : channel) (exchange exchange_type : string)
| PQueueDeclare (ch : channel) (queue : string) (durable : bool)
| PQueueBind (ch : channel) (queue exchange : string)
| PChannelAddOnCancelCallback (ch : channel)
| PBasicQos (ch : channel) (prefetch_count : Z)
| PBasicConsume (ch : channel) (queue : string)
| PBasicCancel (ch : channel) (consumer_tag : option string)
| PChannelClose (ch : channel)
| PConnectionClose (conn : connection)
| PIOLoopStart (conn : connection)
| PIOLoopStop (conn : connection)
| PIOLoopCallLater (conn : connection) (delay : Z).

Inductive event :=
| Base (x : effect)
| Pika (c : pika_call).

(** The same monad, over a trace of events. *)
Definition L (S A : Type) : Type := S → list event * S * result A.

Definition lret {S A} (a : A) : L S A := fun s => ([], s, Ok a).

Definition lbind {S A B} (m : L S A) (f : A → L S B) : L S B :=
  fun s =>
    match m s with
    | (t1, s1, Ok a) =>
        match f a s1 with
        | (t2, s2, r) => (t1 ++ t2, s2, r)
        end
    | (t1, s1, Raise e) => (t1, s1, Raise e)
    end.

Definition lraise {S A} (e : exn) : L S A := fun s => ([], s, Raise e).
Definition pika {S} (c : pika_call) : L S unit := fun s => ([Pika c], s, Ok tt).
Definition lget {S} : L S S := fun s => ([], s, Ok s).
Definition lmodify {S} (f : S → S) : L S unit := fun s => ([], f s, Ok tt).

(** A method modelled above, run in the larger trace. *)
Definition base {S A} (m : M S A) : L S A :=
  fun s =>
    match m s with
    | (t, s', r) => (Base <$> t, s', r)
    end.

Declare Scope life_scope.
Delimit Scope life_scope with life.
Notation "x <- m ;; k" := (lbind m (fun x => k))
  (at level 100, m at next level, right associativity) : life_scope.
Notation "m ;; k" := (lbind m (fun _ => k))
  (at level 100, right associativity) : life_scope.
Local Open Scope life_scope.

Definition llogger {S} (level msg : string) : L S unit := base (logger level msg).

(** What pika reports of the connection when [close_connection] looks. *)
Inductive connection_state := ConnActive | ConnClosing | ConnClosed.

(** [self._connection.m(...)]. *)
Definition the_connection : L AsyncConsumer connection :=
  self <- lget;;
  match _connection self with
  | Some c => lret c
  | None => lraise [AttributeError]
  end.

Definition AsyncConsumer_close_connection : L AsyncConsumer unit :=
  llogger "info" "Closing connection";;
  c <- the_connection;;
  pika (PConnectionClose c).

Definition TornadoConsumer_close_connection (st : connection_state)
    : L AsyncConsumer unit :=
  c <- the_connection;;
  match st with
  | ConnClosing | ConnClosed =>
      llogger "info" "Connection is closing or already closed"
  | ConnActive =>
      llogger "info" "Closing connection";;
      pika (PConnectionClose c)
  end.

Definition close_connection (st : connection_state) : L AsyncConsumer unit :=
  self <- lget;;
  match cls self with
  | CAsyncConsumer => AsyncConsumer_close_connection
  | CTornadoConsumer | CMessageConsumer => TornadoConsumer_close_connection st
  end.

Definition AsyncConsumer_on_connection_closed
    (script : list new_connection_outcome) : L AsyncConsumer unit :=
  lmodify (set_channel None);;
  self <- lget;;
  if _closing self then
    llogger "warning" "Connection closed, stopping ioloop";;
    c <- the_connection;;
    pika (PIOLoopStop c)
  else
    llogger "warning" "Connection closed, reconnect necessary";;
    base (reconnect script).

Definition TornadoConsumer_on_connection_closed : L AsyncConsumer unit :=
  lmodify (set_channel None);;
  self <- lget;;
  if _closing self then
    llogger "warning" "Connection closed, stopping ioloop";;
    c <- the_connection;;
    pika (PIOLoopStop c)
  else
    llogger "warning" "Connection closed, reopening in 3 seconds";;
    c <- the_connection;;
    pika (PIOLoopCallLater c 3).

Definition on_connection_closed (script : list new_connection_outcome)
    : L AsyncConsumer unit :=
  self <- lget;;
  match cls self with
  | CAsyncConsumer => AsyncConsumer_on_connection_closed script
  | CTornadoConsumer | CMessageConsumer => TornadoConsumer_on_connection_closed
  end.

Definition add_on_channel_close_callback : L AsyncConsumer unit :=
  llogger "info" "Adding channel close callback";;
  ch <- base the_channel;;
  pika (PChannelAddOnCloseCallback ch).

Definition on_channel_closed (st : connection_state) : L AsyncConsumer unit :=
  llogger "warning" "Channel was closed";;
  close_connection st.

Definition setup_exchange (exchange_name : string) : L AsyncConsumer unit :=
  llogger "info" "Declaring exchange";;
  ch <- base the_channel;;
  self <- lget;;
  pika (PExchangeDeclare ch exchange_name (_exchange_type self)).

Definition on_channel_open (ch : channel) : L AsyncConsumer unit :=
  llogger "info" "Channel opened";;
  lmodify (set_channel (Some ch));;
  add_on_channel_close_callback;;
  self <- lget;;
  setup_exchange (_exchange self).

Definition setup_queue (queue_name : string) : L AsyncConsumer unit :=
  llogger "info" "Declaring queue";;
  ch <- base the_channel;;
  self <- lget;;
  pika (PQueueDeclare ch queue_name (_durable_queue self)).

Definition on_exchange_declareok : L AsyncConsumer unit :=
  llogger "info" "Exchange declared";;
  self <- lget;;
  setup_queue (_queue self).

Definition on_queue_declareok : L AsyncConsumer unit :=
  llogger "info" "Binding to rabbit";;
  ch <- base the_channel;;
  self <- lget;;
  pika (PQueueBind ch (_queue self) (_exchange self)).

Definition add_on_cancel_callback : L AsyncConsumer unit :=
  llogger "info" "Adding consumer cancellation callback";;
  ch <- base the_channel;;
  pika (PChannelAddOnCancelCallback ch).

(** [consumer_tag] is the tag [basic_consume] returns. *)
Definition start_consuming (consumer_tag : string) : L AsyncConsumer unit :=
  llogger "info" "Issuing consumer related RPC commands";;
  add_on_cancel_callback;;
  ch <- base the_channel;;
  pika (PBasicQos ch 1);;
  ch <- base the_channel;;
  self <- lget;;
  pika (PBasicConsume ch (_queue self));;
  lmodify (set_consumer_tag (Some consumer_tag)).

Definition on_bindok (consumer_tag : string) : L AsyncConsumer unit :=
  llogger "info" "Queue bound";;
  start_consuming consumer_tag.

Definition on_consumer_cancelled : L AsyncConsumer unit :=
  llogger "info" "Consumer was cancelled remotely, shutting down: %r";;
  self <- lget;;
  match _channel self with
  | Some ch => pika (PChannelClose ch)
  | None => lret tt
  end.

Definition close_channel : L AsyncConsumer unit :=
  llogger "info" "Closing the channel";;
  ch <- base the_channel;;
  pika (PChannelClose ch).

Definition on_cancelok : L AsyncConsumer unit :=
  llogger "info" "RabbitMQ acknowledged the cancellation of the consumer";;
  close_channel.

Definition stop_consuming : L AsyncConsumer unit :=
  self <- lget;;
  match _channel self with
  | Some ch =>
      llogger "info" "Sending a Basic.Cancel RPC command to RabbitMQ";;
      pika (PBasicCancel ch (_consumer_tag self))
  | None => lret tt
  end.

(** [run]: when [connect] has returned, the connection is stored and
    its ioloop started. *)
Definition run (script : list new_connection_outcome) : L AsyncConsumer unit :=
  llogger "debug" "Running rabbit consumer";;
  c <- base (connect script);;
  match c with
  | Some c =>
      lmodify (set_connection (Some c));;
      c <- the_connection;;
      pika (PIOLoopStart c)
  | None => lret tt
  end.

Definition stop : L AsyncConsumer unit :=
  llogger "info" "Stopping";;
  lmodify (set_closing true);;
  stop_consuming;;
  llogger "info" "Stopped".

Local Close Scope life_scope.

(** The calls of a life-cycle trace, log lines left out. *)
Definition is_call (x : event) : bool :=
  match x with
  | Base (ELog _ _) => false
  | _ => true
  end.

Definition calls (t : list event) : list event := List.filter is_call t.

Definition base_trace (t : list event) : trace :=
  omap (fun x => match x with Base y => Some y | Pika _ => None end) t.

Definition events_of {S A} (r : list event * S * result A) : list event := r.1.1.
Definition lstate_of {S A} (r : list event * S * result A) : S := r.1.2.
Definition lresult_of {S A} (r : list event * S * result A) : result A := r.2.

Definition is_pika (x : event) : bool :=
  match x with Pika _ => true | Base _ => false end.

(** The effects of a trace other than log lines. *)
Definition is_log (x : effect) : bool :=
  match x with ELog _ _ => true | _ => false end.

Definition effect_calls (t : trace) : list effect :=
  List.filter (fun x => negb (is_log x)) t.

(** Whether [self.close_connection()] calls [connection.close()]: the
    [TornadoConsumer] override skips it on a connection that is closing
    or closed. *)
Definition closes_connection (k : consumer_class) (st : connection_state) : bool :=
  match k, st with
  | CAsyncConsumer, _ => true
  | _, ConnActive => true
  | _, _ => false
  end.

(** More sample objects. *)

(** b"\xff", not UTF-8 *)
Definition invalid_body : list Byte.byte := [Byte.xff].

Definition publisher_broken : list Byte.byte → gmap string pyval → call_outcome :=
  fun _ _ => Raises [ValueError].

Definition unchecked (proc : pyobj)
    (publisher : list Byte.byte → gmap string pyval → call_outcome)
    : MessageConsumer :=
  {| super := super (consuming proc publisher);
     process := proc;
     quarantine_publisher := publisher;
     check_tx_id := false |}.

(** A consumer whose connection has gone: no channel. *)
Definition detached (proc : pyobj)
    (publisher : list Byte.byte → gmap string pyval → call_outcome)
    : MessageConsumer :=
  {| super := set_channel None (super (consuming proc publisher));
     process := proc;
     quarantine_publisher := publisher;
     check_tx_id := true |}.

Definition one_failure_then_open : list new_connection_outcome :=
  [OpenRaises [AMQPConnectionError]] ++ Opened 7 :: [].

Definition one_failure_then_error : list new_connection_outcome :=
  [OpenRaises [AMQPConnectionError]] ++ OpenRaises [ValueError] :: [].

(** A consumer that has connected and not yet opened its channel. *)
Definition connected : AsyncConsumer := set_connection (Some 1) two_urls_consumer.

(** ** The retry loop of [connect] *)

Section connect_facts.

Lemma pred_mod (c n : Z) :
  0 < n → (c - 1) mod n = if bool_decide (c mod n = 0) then n - 1 else c mod n - 1.
Proof.
  intros Hn. pose proof (Z.mod_pos_bound c n Hn) as Hb.
  rewrite <- Zminus_mod_idemp_l.
  case_bool_decide as H0.
  - rewrite H0. symmetry. apply (Z.mod_unique_pos _ _ (-1)); lia.
  - apply Z.mod_small. lia.
Qed.

(** [self._rabbit_urls[(self._count % no_of_servers) - 1]] never
    raises on a non-empty list, and is the round-robin endpoint. *)
Lemma py_index_server_choice (urls : list string) (c : Z) :
  urls ≠ [] →
  py_index urls (c mod Z.of_nat (length urls) - 1) = endpoint_at urls c
  ∧ is_Some (endpoint_at urls c).
Proof.
  intros Hne. unfold py_index, endpoint_at.
  assert (0 < Z.of_nat (length urls)) as Hn by (destruct urls; simpl; [done | lia]).
  pose proof (Z.mod_pos_bound c _ Hn) as Hb.
  pose proof (Z.mod_pos_bound (c - 1) _ Hn) as Hb'.
  split; [| apply lookup_lt_is_Some; lia].
  cbv zeta. rewrite (pred_mod c _ Hn).
  destruct (decide (c mod Z.of_nat (length urls) = 0)) as [H0|H0].
  - rewrite (bool_decide_true _ H0), H0.
    rewrite bool_decide_false by lia.
    rewrite bool_decide_true by lia. f_equal; lia.
  - rewrite (bool_decide_false _ H0).
    rewrite bool_decide_true by lia. done.
Qed.

Lemma endpoint_at_rotate (urls : list string) (c : Z) (i : nat) :
  (i < length urls)%nat →
  endpoint_at urls (c + Z.of_nat i)
  = rotate (Z.to_nat ((c - 1) mod Z.of_nat (length urls))) urls !! i.
Proof.
  intros Hi. rewrite lookup_rotate_r by done.
  unfold endpoint_at, rotate_nat_add. do 2 f_equal.
  assert (0 < Z.of_nat (length urls)) as Hn by lia.
  rewrite Z2Nat.id by (apply Z.mod_pos_bound; lia).
  rewrite Zplus_mod_idemp_l. f_equal. lia.
Qed.

Lemma rotate_Permutation {A} (n : nat) (l : list A) : rotate n l ≡ₚ l.
Proof.
  unfold rotate. rewrite Permutation_app_comm. by rewrite take_drop.
Qed.

Lemma forallb_take {A} (f : A → bool) (j : nat) (l : list A) :
  forallb f l = true → forallb f (take j l) = true.
Proof.
  revert j. induction l as [|x l IH]; intros [|j] H; cbn in *; try done.
  apply andb_prop in H as [-> H]. cbn. by apply IH.
Qed.

End connect_facts.

Section connect_loop_facts.

Context (adapter : conn_adapter).

(** The last round: the constructor call is issued and pending. *)
Lemma connect_loop_pending (self : AsyncConsumer) (u : string) :
  endpoint_at (_rabbit_urls self) (_count self) = Some u →
  _rabbit_urls self ≠ [] →
  connect_loop adapter (Z.of_nat (length (_rabbit_urls self))) [] self
  = ([ELog "info" "Connecting"; ENewConnection adapter u],
     set_url (Some u) self, Ok None).
Proof.
  intros Hu Hne.
  destruct (py_index_server_choice _ (_count self) Hne) as [Hi _].
  rewrite Hu in Hi.
  unfold connect_loop, bind, get, py_mod, getitem.
  rewrite bool_decide_false by (destruct (_rabbit_urls self); simpl; [done | lia]).
  cbn. rewrite Hi. reflexivity.
Qed.

(** One failed round: attempt, sleep [_count] seconds, count up, loop. *)
Lemma connect_loop_failed (self : AsyncConsumer) (u : string) (e : exn)
    (rest : list new_connection_outcome) :
  endpoint_at (_rabbit_urls self) (_count self) = Some u →
  _rabbit_urls self ≠ [] →
  isinstance e AMQPConnectionError = true →
  0 ≤ _count self →
  connect_loop adapter (Z.of_nat (length (_rabbit_urls self)))
    (OpenRaises e :: rest) self
  = let r := connect_loop adapter (Z.of_nat (length (_rabbit_urls self))) rest
               (set_count (_count self + 1) (set_url (Some u) self)) in
    ([ELog "info" "Connecting"; ENewConnection adapter u;
      ELog "exception" "Connection error";
      ELog "info" "Sleeping before reconnect"; ESleep (_count self)]
       ++ trace_of r, state_of r, result_of r).
Proof.
  intros Hu Hne He Hc.
  destruct (py_index_server_choice _ (_count self) Hne) as [Hi _].
  rewrite Hu in Hi.
  cbn [connect_loop]. rewrite He.
  unfold bind, get, py_mod, getitem, _delay_before_reconnect, time_sleep, bind, get.
  rewrite bool_decide_false by (destruct (_rabbit_urls self); simpl; [done | lia]).
  cbn. rewrite Hi. cbn.
  rewrite bool_decide_false by lia. cbn.
  destruct (connect_loop _ _ rest _) as [[t s] r]. reflexivity.
Qed.

(** [K] failed rounds in a row, from any counter value. *)
Lemma connect_loop_failures (script : list new_connection_outcome) :
  ∀ self : AsyncConsumer,
    _rabbit_urls self ≠ [] →
    0 ≤ _count self →
    forallb connection_error script = true →
    let K := Z.of_nat (length script) in
    let r := connect_loop adapter (Z.of_nat (length (_rabbit_urls self)))
               script self in
    result_of r = Ok None
    ∧ _count (state_of r) = _count self + K
    ∧ _rabbit_urls (state_of r) = _rabbit_urls self
    ∧ Some <$> attempted_urls (trace_of r)
      = endpoint_at (_rabbit_urls self) <$> seqZ (_count self) (K + 1)
    ∧ retry_events (trace_of r)
      = (seqZ (_count self) K ≫= λ i, [Attempt; Slept i]) ++ [Attempt].
Proof.
  induction script as [|o rest IH]; intros self Hne Hc Hall K r.
  - destruct (py_index_server_choice _ (_count self) Hne) as [_ [u Hu]].
    subst r. rewrite (connect_loop_pending self u Hu Hne).
    subst K. cbn. split_and!; [done | lia | done | |].
    + rewrite seqZ_cons, seqZ_nil by lia. cbn. by rewrite Hu.
    + by rewrite seqZ_nil by lia.
  - destruct (py_index_server_choice _ (_count self) Hne) as [_ [u Hu]].
    cbn [forallb] in Hall. apply andb_prop in Hall as [Ho Hall].
    destruct o as [c|e]; [done|]. cbn in Ho.
    subst r. rewrite (connect_loop_failed self u e rest Hu Hne Ho Hc).
    set (self' := set_count (_count self + 1) (set_url (Some u) self)).
    destruct (IH self') as (Hr & Hcnt & Hurls & Hatt & Hev);
      [done | cbn; lia | done |].
    change (_rabbit_urls self') with (_rabbit_urls self) in *.
    change (_count self') with (_count self + 1) in *.
    destruct (connect_loop _ _ rest self') as [[t s] res].
    cbn [trace_of state_of result_of fst snd] in *.
    assert (K = Z.of_nat (length rest) + 1) as -> by (subst K; cbn [length]; lia).
    split_and!.
    + exact Hr.
    + rewrite Hcnt. lia.
    + exact Hurls.
    + unfold attempted_urls in *. cbn. rewrite Hatt.
      rewrite (seqZ_cons (_count self)) by lia. cbn. rewrite Hu.
      by replace (Z.pred (Z.of_nat (length rest) + 1 + 1))
        with (Z.of_nat (length rest) + 1) by lia.
    + unfold retry_events in *. cbn. rewrite Hev.
      rewrite (seqZ_cons (_count self)) by lia. cbn.
      by replace (Z.pred (Z.of_nat (length rest) + 1))
        with (Z.of_nat (length rest)) by lia.
Qed.

End connect_loop_facts.

(** [self.connect()] is the loop, with the adapter of the instance's class. *)
Lemma connect_dispatch (script : list new_connection_outcome) (self : AsyncConsumer) :
  connect script self
  = connect_loop (class_adapter (cls self))
      (Z.of_nat (length (_rabbit_urls self))) script self.
Proof.
  unfold connect, AsyncConsumer_connect, TornadoConsumer_connect, connect_with,
    bind, get.
  destruct (cls self); cbn;
    destruct (connect_loop _ _ script self) as [[t s] r]; reflexivity.
Qed.

(** The asynchronous failure path: [on_connection_open_error] sleeps
    [_count] seconds and counts up before it connects again, so a
    failure reported by callback is backed off like one raised by the
    constructor. *)
Lemma on_connection_open_error_backoff (self : AsyncConsumer)
    (script : list new_connection_outcome) :
  _closing self = false →
  _rabbit_urls self ≠ [] →
  0 ≤ _count self →
  forallb connection_error script = true →
  let K := Z.of_nat (length script) in
  let r := on_connection_open_error script self in
  retry_events (trace_of r)
  = Slept (_count self)
      :: (seqZ (_count self + 1) K ≫= λ i, [Attempt; Slept i]) ++ [Attempt]
  ∧ _count (state_of r) = _count self + 1 + K.
Proof.
  intros Hcl Hne Hc Hall K r. subst r.
  set (self' := set_count (_count self + 1) self).
  destruct (connect_loop_failures (class_adapter (cls self')) script self')
    as (Hr & Hcnt & _ & _ & Hev); [done | cbn; lia | done |].
  rewrite <- connect_dispatch in Hr, Hcnt, Hev.
  unfold on_connection_open_error, reconnect, _delay_before_reconnect,
    time_sleep, logger, bind, get, modify, emit.
  rewrite bool_decide_false by lia. cbn -[connect]. rewrite Hcl. cbn -[connect].
  fold self'. destruct (connect script self') as [[t s] res].
  cbn in Hr, Hcnt, Hev |- *. subst res. cbn.
  unfold retry_events in *. rewrite app_nil_r. cbn. by rewrite Hev.
Qed.

(** C4, as stated, fails: [MessageConsumer.__init__] given an empty
    [rabbit_urls] list does not raise; it returns a consumer holding
    the empty list. *)
Lemma init_accepts_empty_urls :
  match MessageConsumer_init true "ex" "topic" "q" []
          publisher_up returns_normally true with
  | Ok c => _rabbit_urls (super c) = []
  | Raise _ => False
  end.
Proof. reflexivity. Qed.

(** C4, amended.  Constructing a consumer of any class with an empty
    [rabbit_urls] list succeeds, the constructors do not look at the
    list; the failure surfaces in [connect()], which raises
    ZeroDivisionError before it makes any connection attempt and leaves
    the consumer as it was. *)
Theorem empty_urls_fail_in_connect (k : consumer_class) (durable_queue : bool)
    (exchange exchange_type rabbit_queue : string)
    (publisher : list Byte.byte → gmap string pyval → call_outcome)
    (f : list Z → pyval → call_outcome) (check : bool)
    (script : list new_connection_outcome) :
  let base := AsyncConsumer_init k durable_queue exchange exchange_type
                rabbit_queue [] in
  connect script base = ([], base, Raise [ZeroDivisionError])
  ∧ ∃ c, MessageConsumer_init durable_queue exchange exchange_type rabbit_queue []
           publisher (Callable f) check = Ok c
         ∧ _rabbit_urls (super c) = []
         ∧ connect script (super c) = ([], super c, Raise [ZeroDivisionError]).
Proof.
  cbv zeta. split.
  - rewrite connect_dispatch. by destruct script.
  - eexists. split_and!; [reflexivity | reflexivity |].
    rewrite connect_dispatch. by destruct script.
Qed.

(** C5, as stated, fails: with two endpoints and the counter at 1,
    [endpoints[counter mod N]] is the second endpoint, and [connect]
    selects the first. *)
Lemma connect_endpoint_not_counter_mod_N :
  _rabbit_urls two_urls_consumer
    !! Z.to_nat (_count two_urls_consumer
                 mod Z.of_nat (length (_rabbit_urls two_urls_consumer)))
  = Some "amqp://b"
  ∧ attempted_urls (trace_of (connect [] two_urls_consumer)) = ["amqp://a"]
  ∧ _url (state_of (connect [] two_urls_consumer)) = Some "amqp://a"
  ∧ _url (state_of (connect [] two_urls_consumer))
    ≠ _rabbit_urls two_urls_consumer
        !! Z.to_nat (_count two_urls_consumer
                     mod Z.of_nat (length (_rabbit_urls two_urls_consumer))).
Proof. split_and!; [reflexivity | reflexivity | reflexivity | discriminate]. Qed.

(** C5, amended.  For every non-empty endpoint list of length N and
    every counter value, a connection attempt selects the endpoint at
    Python index [(counter mod N) - 1], that is
    [endpoints[(counter - 1) mod N]]: each attempt of a run of failed
    attempts uses the endpoint of its own counter value, and the list is
    left unchanged. *)
Theorem connect_endpoint_selection (self : AsyncConsumer)
    (script : list new_connection_outcome) :
  _rabbit_urls self ≠ [] →
  0 ≤ _count self →
  forallb connection_error script = true →
  let urls := _rabbit_urls self in
  let r := connect script self in
  (∀ c : Z, py_index urls (c mod Z.of_nat (length urls) - 1) = endpoint_at urls c)
  ∧ Some <$> attempted_urls (trace_of r)
    = endpoint_at urls <$> seqZ (_count self) (Z.of_nat (length script) + 1)
  ∧ _rabbit_urls (state_of r) = urls.
Proof.
  intros Hne Hc Hall urls r. subst r. rewrite connect_dispatch.
  destruct (connect_loop_failures (class_adapter (cls self)) script self Hne Hc Hall)
    as (_ & _ & Hurls & Hatt & _).
  split_and!; [| done | done].
  intros c. by destruct (py_index_server_choice urls c Hne).
Qed.

Lemma connect_endpoint_selection_witness :
  Some <$> attempted_urls (trace_of (connect two_failures two_urls_consumer))
  = [Some "amqp://a"; Some "amqp://b"; Some "amqp://a"].
Proof.
  pose proof (connect_endpoint_selection two_urls_consumer two_failures) as H.
  destruct H as (_ & H & _); [done | done | reflexivity |].
  rewrite H. reflexivity.
Defined.

(** C6.  For a non-empty endpoint list of length N, a run of N failed
    attempts is followed by attempt N+1; the first N attempts, made with
    consecutive counter values, select a permutation of the list, and
    attempt N+1 selects the endpoint of attempt 1 again. *)
Theorem connect_round_robin_permutation (self : AsyncConsumer)
    (script : list new_connection_outcome) :
  _rabbit_urls self ≠ [] →
  0 ≤ _count self →
  forallb connection_error script = true →
  length script = length (_rabbit_urls self) →
  let N := length (_rabbit_urls self) in
  let attempts := attempted_urls (trace_of (connect script self)) in
  length attempts = S N
  ∧ take N attempts ≡ₚ _rabbit_urls self
  ∧ attempts !! N = attempts !! 0%nat.
Proof.
  intros Hne Hc Hall Hlen N attempts.
  assert (0 < N)%nat as HN by (subst N; destruct (_rabbit_urls self); simpl; [done | lia]).
  assert (Some <$> attempts
          = endpoint_at (_rabbit_urls self) <$> seqZ (_count self) (Z.of_nat N + 1))
    as Hatt.
  { subst attempts. rewrite connect_dispatch.
    destruct (connect_loop_failures (class_adapter (cls self)) script self Hne Hc Hall)
      as (_ & _ & _ & Hatt & _).
    rewrite Hatt, Hlen. done. }
  assert (length attempts = S N) as Hl.
  { apply (f_equal length) in Hatt.
    rewrite !length_fmap, length_seqZ in Hatt. lia. }
  assert (∀ i : nat, (i ≤ N)%nat →
            attempts !! i = endpoint_at (_rabbit_urls self) (_count self + Z.of_nat i))
    as Hlook.
  { intros i Hi. apply (f_equal (λ l, l !! i)) in Hatt.
    rewrite !list_lookup_fmap, lookup_seqZ_lt in Hatt by lia. cbn in Hatt.
    destruct (attempts !! i) as [x|] eqn:Hx; cbn in Hatt; [|done].
    by injection Hatt as <-. }
  split_and!; [done | |].
  - replace (take N attempts)
      with (rotate (Z.to_nat ((_count self - 1) mod Z.of_nat N)) (_rabbit_urls self)).
    { apply rotate_Permutation. }
    apply list_eq. intros i.
    destruct (decide (i < N)%nat) as [Hi|Hi].
    + rewrite lookup_take_lt, Hlook by lia.
      symmetry. by apply endpoint_at_rotate.
    + rewrite lookup_take_ge by lia.
      apply lookup_ge_None. rewrite length_rotate. subst N. lia.
  - rewrite !Hlook by lia. unfold endpoint_at. do 2 f_equal.
    fold N. replace (_count self + Z.of_nat N - 1)
      with (_count self + Z.of_nat 0 - 1 + 1 * Z.of_nat N) by lia.
    apply Z_mod_plus_full.
Qed.

Lemma connect_round_robin_permutation_witness :
  take 2 (attempted_urls (trace_of (connect two_failures two_urls_consumer)))
  ≡ₚ ["amqp://a"; "amqp://b"].
Proof.
  refine (proj1 (proj2 (connect_round_robin_permutation two_urls_consumer
                          two_failures _ _ _ _)));
    [done | done | reflexivity | reflexivity].
Defined.

(** C7.  From a counter at 1 (fresh, or just reset), a run of K failed
    connection attempts is: attempt 1, sleep 1, attempt 2, sleep 2, ...,
    attempt K, sleep K, attempt K+1.  The sleep before attempt K+1 is K
    seconds, every failed attempt is followed by the next one, and the
    counter has gone up by exactly 1 per failed attempt (after [j]
    failures it is [j + 1]). *)
Theorem connect_linear_backoff (self : AsyncConsumer)
    (script : list new_connection_outcome) :
  _rabbit_urls self ≠ [] →
  _count self = 1 →
  forallb connection_error script = true →
  let K := Z.of_nat (length script) in
  let r := connect script self in
  retry_events (trace_of r) = (seqZ 1 K ≫= λ i, [Attempt; Slept i]) ++ [Attempt]
  ∧ _count (state_of r) = K + 1
  ∧ result_of r = Ok None
  ∧ ∀ j : nat, (j ≤ length script)%nat →
      _count (state_of (connect (take j script) self)) = Z.of_nat j + 1.
Proof.
  intros Hne H1 Hall K r.
  assert (∀ s, forallb connection_error s = true →
            let r := connect s self in
            retry_events (trace_of r)
            = (seqZ 1 (Z.of_nat (length s)) ≫= λ i, [Attempt; Slept i]) ++ [Attempt]
            ∧ _count (state_of r) = Z.of_nat (length s) + 1
            ∧ result_of r = Ok None) as Hgen.
  { intros s Hs. cbv zeta. rewrite connect_dispatch.
    destruct (connect_loop_failures (class_adapter (cls self)) s self Hne
                ltac:(lia) Hs) as (Hr & Hcnt & _ & _ & Hev).
    rewrite H1 in *. split_and!; [done | lia | done]. }
  destruct (Hgen script Hall) as (Hev & Hcnt & Hr).
  split_and!; [done | done | done |].
  intros j Hj.
  destruct (Hgen (take j script)) as (_ & Hcnt' & _).
  - by apply forallb_take.
  - rewrite Hcnt', length_take. f_equal. lia.
Qed.

Lemma connect_linear_backoff_witness :
  retry_events (trace_of (connect two_failures two_urls_consumer))
  = [Attempt; Slept 1; Attempt; Slept 2; Attempt].
Proof.
  refine (proj1 (connect_linear_backoff two_urls_consumer two_failures _ _ _));
    [done | reflexivity | reflexivity].
Defined.

(** C8.  [on_connection_open] sets the counter to 1 whatever it was
    before, and only then goes on to channel setup: after the log line,
    the handler is [open_channel] run on the consumer whose counter is
    already 1. *)
Theorem on_connection_open_resets_count (self : AsyncConsumer) :
  let r := on_connection_open self in
  let setup := open_channel (set_count 1 self) in
  _count (state_of r) = 1
  ∧ _count (set_count 1 self) = 1
  ∧ r = (ELog "info" "Connection opened" :: trace_of setup,
         state_of setup, result_of setup).
Proof.
  cbv zeta. unfold on_connection_open, open_channel, bind, get, modify, logger, emit.
  cbn. destruct (_connection self); cbn; done.
Qed.

(** ** [MessageConsumer.on_message] *)

Ltac unfold_py :=
  unfold on_message, inherited, lift, acknowledge_message, nack_message,
    reject_message, the_channel, publish_message, call_process,
    bytes_decode_utf8, tx_id, logger, try_except, bind, get, modify,
    emit, ret, raise, new_exn.

Ltac py_beta :=
  cbn [super process quarantine_publisher check_tx_id _channel headers
       delivery_tag].

Ltac open_delivery self d props :=
  destruct self as [[k ex ext dq q urls conn chn closing ctag url cnt] p pub chk];
  destruct d as [tag]; destruct props as [hd appid];
  unfold delivery_tx_id, process_invocation, quarantinable in *;
  cbn [super process quarantine_publisher check_tx_id _channel headers
       delivery_tag] in *;
  subst.

(** The tx_id block, given that it produced a tx_id. *)
Ltac tx_stage Htx :=
  match type of Htx with
  | (if ?chk then ?hd ≫= _ else _) = Some _ =>
      destruct chk;
      [ destruct hd as [?h|]; [cbn in Htx; py_beta; rewrite Htx | done]
      | injection Htx as <-; py_beta ]
  end.

(** The call of [process], given what the invocation does. *)
Ltac invocation_stage Hinv :=
  match type of Hinv with
  | match Utf8.decode ?body with _ => _ end = _ =>
      destruct (Utf8.decode body) as [?text|];
      [ match type of Hinv with
        | match ?p with _ => _ end = _ =>
            destruct p as [?f|]; py_beta; [rewrite Hinv |]
        end
      | ]
  end.

Ltac class_case :=
  match goal with
  | |- context [bool_decide (?c ∈ ?l)] =>
      let E := fresh "E" in
      destruct (bool_decide (c ∈ l)) eqn:E; try (by vm_compute in E); cbn
  end.

Ltac publisher_cases :=
  match goal with
  | |- context [match ?call with Returns => _ | Raises _ => _ end] =>
      let e' := fresh "e'" in
      destruct call as [|e'] eqn:?; cbn;
      [| destruct (bool_decide (PublishMessageError ∈ e')) eqn:?; cbn]
  end.

(** The exception built by [raise QuarantinableError] is caught by
    [except (QuarantinableError, BadMessageError)]. *)
Lemma raised_quarantinable :
  bool_decide (QuarantinableError ∈ [QuarantinableError]) = true.
Proof. reflexivity. Qed.

(** C1.  For every delivery handled by [on_message] on a consumer that
    holds its channel, whatever the processing callback does (return,
    or raise any exception) and whether the quarantine publisher
    succeeds or raises PublishMessageError, [on_message] returns
    normally and has sent exactly one terminal action for the delivery
    tag: one ack, or one nack, or one reject. *)
Theorem exactly_one_terminal_action (self : MessageConsumer) (d : Deliver)
    (props : BasicProperties) (body : list Byte.byte) (ch : channel) :
  _channel (super self) = Some ch →
  (∀ hdrs e, quarantine_publisher self body hdrs = Raises e →
             isinstance e PublishMessageError = true) →
  let r := on_message d props body self in
  let tag := delivery_tag d in
  result_of r = Ok tt
  ∧ (broker_actions (trace_of r) = [EBasicAck ch tag]
     ∨ broker_actions (trace_of r) = [EBasicNack ch tag]
     ∨ ∃ requeue, broker_actions (trace_of r) = [EBasicReject ch tag requeue]).
Proof.
  intros Hch Hpub. open_delivery self d props. unfold_py.
  destruct chk; py_beta;
    [ destruct hd as [h|]; py_beta;
      [ destruct (h !! "tx_id") as [tx|] |] |].
  2, 3: cbn; eauto.
  all: destruct (Utf8.decode body) as [text|];
    [ destruct p as [f|]; py_beta; [destruct (f text _) as [|e] |] |].
  all: cbn; eauto 6.
  all: repeat class_case; eauto 6.
  all: match goal with
       | |- context [match ?call with Returns => _ | Raises _ => _ end] =>
           let e' := fresh "e'" in
           let Hcall := fresh "Hcall" in
           destruct call as [|e'] eqn:Hcall; cbn; [by eauto 6|];
           apply Hpub in Hcall; cbn in Hcall; rewrite Hcall; cbn; by eauto 6
       end.
Qed.

Lemma exactly_one_terminal_action_witness :
  result_of (on_message sample_delivery sample_properties sample_body
               (consuming (raises [BadMessageError]) publisher_down))
  = Ok tt.
Proof.
  refine (proj1 (exactly_one_terminal_action
                   (consuming (raises [BadMessageError]) publisher_down)
                   sample_delivery sample_properties sample_body 1 _ _)).
  - reflexivity.
  - intros hdrs e He. injection He as <-. reflexivity.
Defined.

(** C2.  When the invocation of the callback raises a QuarantinableError
    or a BadMessageError, [on_message] makes exactly one quarantine
    publish, of the raw body with headers [{'tx_id': tx_id}].  If the
    publish returns, the calls made are that publish followed by one
    reject without requeue; if it raises PublishMessageError, that
    publish followed by one reject with requeue.  Neither an ack nor a
    nack is sent. *)
Theorem quarantinable_published_then_rejected (self : MessageConsumer) (d : Deliver)
    (props : BasicProperties) (body : list Byte.byte) (ch : channel) (tx : pyval)
    (e : exn) :
  _channel (super self) = Some ch →
  delivery_tx_id self props = Some tx →
  process_invocation self body tx = Raises e →
  matches e [QuarantinableError; BadMessageError] = true →
  let r := on_message d props body self in
  let hdrs : gmap string pyval := {[ "tx_id" := tx ]} in
  publishes (trace_of r) = [EPublishMessage body hdrs]
  ∧ (quarantine_publisher self body hdrs = Returns →
       outgoing_calls (trace_of r)
       = [EPublishMessage body hdrs; EBasicReject ch (delivery_tag d) false]
       ∧ result_of r = Ok tt)
  ∧ (∀ e', quarantine_publisher self body hdrs = Raises e' →
           isinstance e' PublishMessageError = true →
           outgoing_calls (trace_of r)
           = [EPublishMessage body hdrs; EBasicReject ch (delivery_tag d) true]
           ∧ result_of r = Ok tt).
Proof.
  intros Hch Htx Hinv Hq. open_delivery self d props. unfold_py.
  tx_stage Htx; invocation_stage Hinv; try (injection Hinv as <-);
    try (by vm_compute in Hq); cbn in Hq |- *;
    destruct (bool_decide (TypeError ∈ e)); cbn;
    rewrite ?Hq, ?raised_quarantinable; cbn.
  all: split_and!.
  all: try (by intros ->).
  all: try (intros e' -> He'; cbn in He' |- *; by rewrite He').
  all: by publisher_cases.
Qed.

Lemma quarantinable_published_then_rejected_witness :
  outgoing_calls (trace_of (on_message sample_delivery sample_properties sample_body
                              (consuming (raises [QuarantinableError]) publisher_down)))
  = [EPublishMessage sample_body sample_headers; EBasicReject 1 5 true].
Proof.
  pose proof (quarantinable_published_then_rejected
                (consuming (raises [QuarantinableError]) publisher_down)
                sample_delivery sample_properties sample_body 1 (PStr "abc123")
                [QuarantinableError]) as H.
  destruct H as (_ & _ & H); [reflexivity | reflexivity | reflexivity | reflexivity |].
  exact (proj1 (H [PublishMessageError] eq_refl eq_refl)).
Defined.

(** C3.  With tx_id checking on, a delivery whose properties have no
    headers mapping, or whose headers lack the [tx_id] key, gets
    exactly one reject without requeue, and the processing callback is
    not invoked. *)
Theorem missing_tx_id_rejected (self : MessageConsumer) (d : Deliver)
    (props : BasicProperties) (body : list Byte.byte) (ch : channel) :
  _channel (super self) = Some ch →
  check_tx_id self = true →
  (headers props = None ∨ ∃ h, headers props = Some h ∧ h !! "tx_id" = None) →
  let r := on_message d props body self in
  broker_actions (trace_of r) = [EBasicReject ch (delivery_tag d) false]
  ∧ process_calls (trace_of r) = []
  ∧ result_of r = Ok tt.
Proof.
  intros Hch Hchk Hmiss. open_delivery self d props.
  unfold_py.
  destruct Hmiss as [->|(h & -> & Hh)]; py_beta; [| rewrite Hh]; cbn; done.
Qed.

Lemma missing_tx_id_rejected_witness :
  broker_actions (trace_of (on_message sample_delivery no_headers sample_body
                              (consuming returns_normally publisher_up)))
  = [EBasicReject 1 5 false].
Proof.
  refine (proj1 (missing_tx_id_rejected (consuming returns_normally publisher_up)
                   sample_delivery no_headers sample_body 1 _ _ _)).
  - reflexivity.
  - reflexivity.
  - left. reflexivity.
Defined.

(** C9.  For a delivery that passes the tx_id block: if the invocation
    of the callback returns normally, exactly one ack is sent for its
    tag, and no nack, reject or quarantine publish; if it raises an
    exception that is not quarantinable (a RetryableError, or any other
    unclassified exception), exactly one nack is sent and no quarantine
    publish is made. *)
Theorem accepted_acks_retryable_nacks (self : MessageConsumer) (d : Deliver)
    (props : BasicProperties) (body : list Byte.byte) (ch : channel) (tx : pyval) :
  _channel (super self) = Some ch →
  delivery_tx_id self props = Some tx →
  let r := on_message d props body self in
  (process_invocation self body tx = Returns →
     broker_actions (trace_of r) = [EBasicAck ch (delivery_tag d)]
     ∧ publishes (trace_of r) = [])
  ∧ (∀ e, process_invocation self body tx = Raises e →
          quarantinable e = false →
          broker_actions (trace_of r) = [EBasicNack ch (delivery_tag d)]
          ∧ publishes (trace_of r) = []).
Proof.
  intros Hch Htx. open_delivery self d props. unfold_py. split.
  - intros Hinv. tx_stage Htx; invocation_stage Hinv; try done; cbn; done.
  - intros e Hinv Hq. apply orb_false_elim in Hq as [Hty Hq].
    cbn in Hty, Hq.
    tx_stage Htx; invocation_stage Hinv; try (injection Hinv as <-);
      cbn in Hty, Hq |- *; try done; rewrite ?Hty; cbn; rewrite ?Hq; cbn;
      try done; destruct (bool_decide (RetryableError ∈ e)); cbn; done.
Qed.

Lemma accepted_acks_retryable_nacks_witness :
  broker_actions (trace_of (on_message sample_delivery sample_properties sample_body
                              (consuming (raises [RetryableError]) publisher_up)))
  = [EBasicNack 1 5].
Proof.
  pose proof (accepted_acks_retryable_nacks
                (consuming (raises [RetryableError]) publisher_up)
                sample_delivery sample_properties sample_body 1 (PStr "abc123")) as H.
  destruct H as (_ & H); [reflexivity | reflexivity |].
  exact (proj1 (H [RetryableError] eq_refl eq_refl)).
Defined.

(** C10.  For a delivery that passes the tx_id block, any TypeError
    that comes out of the invocation of the callback, whether raised by
    the call itself or inside the callback's body, takes the quarantine
    path: one quarantine publish, then a reject (without requeue when
    the publish returns, with requeue when it raises
    PublishMessageError); no nack is ever sent. *)
Theorem type_error_quarantined (self : MessageConsumer) (d : Deliver)
    (props : BasicProperties) (body : list Byte.byte) (ch : channel) (tx : pyval)
    (e : exn) :
  _channel (super self) = Some ch →
  delivery_tx_id self props = Some tx →
  process_invocation self body tx = Raises e →
  isinstance e TypeError = true →
  let r := on_message d props body self in
  let hdrs : gmap string pyval := {[ "tx_id" := tx ]} in
  publishes (trace_of r) = [EPublishMessage body hdrs]
  ∧ List.filter is_nack (trace_of r) = []
  ∧ (quarantine_publisher self body hdrs = Returns →
       outgoing_calls (trace_of r)
       = [EPublishMessage body hdrs; EBasicReject ch (delivery_tag d) false])
  ∧ (∀ e', quarantine_publisher self body hdrs = Raises e' →
           isinstance e' PublishMessageError = true →
           outgoing_calls (trace_of r)
           = [EPublishMessage body hdrs; EBasicReject ch (delivery_tag d) true]).
Proof.
  intros Hch Htx Hinv Hty. open_delivery self d props. unfold_py.
  tx_stage Htx; invocation_stage Hinv; try (injection Hinv as <-);
    try (by vm_compute in Hty); cbn in Hty |- *;
    rewrite ?Hty; cbn; rewrite ?raised_quarantinable; cbn.
  all: split_and!.
  all: try (by intros ->).
  all: try (intros e' -> He'; cbn in He' |- *; by rewrite He').
  all: by publisher_cases.
Qed.

Lemma type_error_quarantined_witness :
  outgoing_calls (trace_of (on_message sample_delivery sample_properties sample_body
                              (consuming (raises [TypeError]) publisher_up)))
  = [EPublishMessage sample_body sample_headers; EBasicReject 1 5 false].
Proof.
  pose proof (type_error_quarantined
                (consuming (raises [TypeError]) publisher_up)
                sample_delivery sample_properties sample_body 1 (PStr "abc123")
                [TypeError]) as H.
  destruct H as (_ & _ & H & _); [reflexivity | reflexivity | reflexivity | reflexivity |].
  exact (H eq_refl).
Defined.

(** ** Further properties of [MessageConsumer.on_message] *)

Ltac publisher_split :=
  match goal with
  | |- context [match ?call with Returns => _ | Raises _ => _ end] =>
      let e' := fresh "e'" in
      destruct call as [|e']; cbn;
      [| destruct (bool_decide (PublishMessageError ∈ e')); cbn]
  end.

(** X1.  [on_message] never changes the consumer: whatever the delivery,
    the callback, the publisher and the channel do, the consumer it
    leaves is the one it was called on (counter, flags, handles and
    callbacks included). *)
Theorem on_message_keeps_consumer (self : MessageConsumer) (d : Deliver)
    (props : BasicProperties) (body : list Byte.byte) :
  state_of (on_message d props body self) = self.
Proof.
  open_delivery self d props. unfold_py.
  destruct chn as [ch|]; destruct chk; py_beta;
    try (destruct hd as [h|]; py_beta; [destruct (h !! "tx_id") as [tx|] |]).
  all: try (cbn; reflexivity).
  all: destruct (Utf8.decode body) as [text|];
    [ destruct p as [f|]; py_beta; [destruct (f text _) as [|e] |] |].
  all: cbn; try reflexivity.
  all: repeat class_case; try reflexivity.
  all: publisher_split; reflexivity.
Qed.

(** X2.  When the invocation raises a quarantinable exception and the
    quarantine publisher raises anything that is not a
    PublishMessageError, that exception leaves [on_message]: the publish
    was attempted once and no ack, nack or reject is sent for the
    delivery. *)
Theorem quarantine_publish_error_propagates (self : MessageConsumer) (d : Deliver)
    (props : BasicProperties) (body : list Byte.byte) (tx : pyval) (e e' : exn) :
  delivery_tx_id self props = Some tx →
  process_invocation self body tx = Raises e →
  quarantinable e = true →
  quarantine_publisher self body {[ "tx_id" := tx ]} = Raises e' →
  isinstance e' PublishMessageError = false →
  let r := on_message d props body self in
  result_of r = Raise e'
  ∧ broker_actions (trace_of r) = []
  ∧ publishes (trace_of r) = [EPublishMessage body {[ "tx_id" := tx ]}].
Proof.
  intros Htx Hinv Hq Hpub He'. open_delivery self d props. unfold_py.
  cbn in He'.
  tx_stage Htx; invocation_stage Hinv; try (injection Hinv as <-);
    cbn in Hq |- *.
  all: destruct (bool_decide (TypeError ∈ _)) eqn:Hty; cbn in Hq |- *;
    rewrite ?Hq, ?raised_quarantinable; cbn; rewrite ?Hpub; cbn;
    rewrite ?He'; cbn; try done.
Qed.

Lemma quarantine_publish_error_propagates_witness :
  result_of (on_message sample_delivery sample_properties sample_body
               (consuming (raises [BadMessageError]) publisher_broken))
  = Raise [ValueError].
Proof.
  refine (proj1 (quarantine_publish_error_propagates
                   (consuming (raises [BadMessageError]) publisher_broken)
                   sample_delivery sample_properties sample_body (PStr "abc123")
                   [BadMessageError] [ValueError] _ _ _ _ _));
    reflexivity.
Defined.

(** X3.  A body that is not valid UTF-8 never reaches the callback: the
    decoding error is handled as an unexpected exception, so the
    delivery gets exactly one nack, and nothing is published to
    quarantine. *)
Theorem undecodable_body_nacked (self : MessageConsumer) (d : Deliver)
    (props : BasicProperties) (body : list Byte.byte) (ch : channel) (tx : pyval) :
  _channel (super self) = Some ch →
  delivery_tx_id self props = Some tx →
  Utf8.decode body = None →
  let r := on_message d props body self in
  broker_actions (trace_of r) = [EBasicNack ch (delivery_tag d)]
  ∧ process_calls (trace_of r) = []
  ∧ publishes (trace_of r) = []
  ∧ result_of r = Ok tt.
Proof.
  intros Hch Htx Hdec. open_delivery self d props. unfold_py.
  tx_stage Htx; rewrite Hdec; cbn; done.
Qed.

Lemma undecodable_body_nacked_witness :
  broker_actions (trace_of (on_message sample_delivery sample_properties invalid_body
                              (consuming returns_normally publisher_up)))
  = [EBasicNack 1 5].
Proof.
  refine (proj1 (undecodable_body_nacked (consuming returns_normally publisher_up)
                   sample_delivery sample_properties invalid_body 1
                   (PStr "abc123") _ _ _));
    reflexivity.
Defined.

(** X4.  With [check_tx_id] off the message properties are not looked
    at: [on_message] does the same for any two properties objects (a
    delivery without headers is processed, not rejected), and the
    callback is called with tx_id None. *)
Theorem unchecked_ignores_properties (self : MessageConsumer) (d : Deliver)
    (props props' : BasicProperties) (body : list Byte.byte)
    (f : list Z → pyval → call_outcome) (text : list Z) :
  check_tx_id self = false →
  process self = Callable f →
  Utf8.decode body = Some text →
  on_message d props body self = on_message d props' body self
  ∧ process_calls (trace_of (on_message d props body self)) = [EProcess text PNone].
Proof.
  intros Hchk Hp Hdec. open_delivery self d props. destruct props' as [hd' appid'].
  unfold_py. py_beta. split; [reflexivity|].
  rewrite Hdec. py_beta. destruct (f text _) as [|e].
  all: destruct chn as [ch|]; cbn; try reflexivity.
  all: repeat class_case; try reflexivity.
  all: publisher_split; reflexivity.
Qed.

Lemma unchecked_ignores_properties_witness :
  on_message sample_delivery no_headers sample_body
    (unchecked returns_normally publisher_up)
  = on_message sample_delivery sample_properties sample_body
      (unchecked returns_normally publisher_up).
Proof.
  refine (proj1 (unchecked_ignores_properties
                   (unchecked returns_normally publisher_up) sample_delivery
                   no_headers sample_properties sample_body (fun _ _ => Returns)
                   [118; 97; 108; 105; 100] _ _ _));
    reflexivity.
Defined.

(** X5.  For a delivery that passes the tx_id block and whose body
    decodes, a callable [process] is invoked exactly once, with the
    decoded text and the tx_id, whatever it then does and whether or
    not the consumer holds a channel. *)
Theorem process_called_once (self : MessageConsumer) (d : Deliver)
    (props : BasicProperties) (body : list Byte.byte) (tx : pyval)
    (f : list Z → pyval → call_outcome) (text : list Z) :
  delivery_tx_id self props = Some tx →
  process self = Callable f →
  Utf8.decode body = Some text →
  process_calls (trace_of (on_message d props body self)) = [EProcess text tx].
Proof.
  intros Htx Hp Hdec. open_delivery self d props. unfold_py.
  tx_stage Htx; rewrite Hdec; py_beta; destruct (f text _) as [|e].
  all: destruct chn as [ch|]; cbn; try reflexivity.
  all: repeat class_case; try reflexivity.
  all: publisher_split; reflexivity.
Qed.

Lemma process_called_once_witness :
  process_calls (trace_of (on_message sample_delivery sample_properties sample_body
                             (consuming (raises [RetryableError]) publisher_up)))
  = [EProcess [118; 97; 108; 105; 100] (PStr "abc123")].
Proof.
  refine (process_called_once (consuming (raises [RetryableError]) publisher_up)
            sample_delivery sample_properties sample_body (PStr "abc123")
            (fun _ _ => Raises [RetryableError]) [118; 97; 108; 105; 100] _ _ _);
    reflexivity.
Defined.

(** X6.  On a consumer that holds no channel, [on_message] sends no
    ack, nack or reject and never returns normally: the failed
    attribute lookup on the missing channel (or the publisher's own
    exception) comes out of it. *)
Theorem no_channel_no_broker_action (self : MessageConsumer) (d : Deliver)
    (props : BasicProperties) (body : list Byte.byte) :
  _channel (super self) = None →
  let r := on_message d props body self in
  broker_actions (trace_of r) = []
  ∧ ∃ e, result_of r = Raise e.
Proof.
  intros Hch. open_delivery self d props. unfold_py.
  destruct chk; py_beta;
    try (destruct hd as [h|]; py_beta; [destruct (h !! "tx_id") as [tx|] |]).
  all: try (cbn; by eauto).
  all: destruct (Utf8.decode body) as [text|];
    [ destruct p as [f|]; py_beta; [destruct (f text _) as [|e] |] |].
  all: cbn; try by eauto.
  all: repeat class_case; try by eauto.
  all: publisher_split; by eauto.
Qed.

Lemma no_channel_no_broker_action_witness :
  broker_actions (trace_of (on_message sample_delivery sample_properties sample_body
                              (detached returns_normally publisher_up)))
  = [].
Proof.
  refine (proj1 (no_channel_no_broker_action (detached returns_normally publisher_up)
                   sample_delivery sample_properties sample_body _)).
  reflexivity.
Defined.

(** X7.  [AsyncConsumer.on_message], the handler of the base classes,
    looks at neither properties nor body: on a consumer with a channel
    it acknowledges the delivery tag, exactly once; without a channel
    it raises AttributeError and sends nothing.  The consumer is left
    unchanged. *)
Theorem base_on_message_acks (self : AsyncConsumer) (d : Deliver)
    (props : BasicProperties) (body : list Byte.byte) :
  let r := AsyncConsumer_on_message d props body self in
  state_of r = self
  ∧ match _channel self with
    | Some ch => result_of r = Ok tt
                 ∧ broker_actions (trace_of r) = [EBasicAck ch (delivery_tag d)]
    | None => result_of r = Raise [AttributeError]
              ∧ broker_actions (trace_of r) = []
    end.
Proof.
  cbv zeta. unfold AsyncConsumer_on_message, acknowledge_message, the_channel,
    logger, bind, get, emit, ret, raise.
  destruct self as [? ? ? ? ? ? ? [ch|] ? ? ? ?]; cbn; done.
Qed.

(** ** Further properties of the connection life cycle *)

Ltac frame_here self := destruct self; split; [reflexivity | cbn; lia].

(** Whatever the constructor calls do, the loop only assigns [_url] and
    [_count], and never lowers [_count]. *)
Lemma connect_loop_frame (adapter : conn_adapter) (N : Z)
    (script : list new_connection_outcome) :
  ∀ self : AsyncConsumer,
    ∃ u n, state_of (connect_loop adapter N script self)
           = set_url u (set_count n self)
           ∧ _count self ≤ n.
Proof.
  induction script as [|o rest IH]; intros self.
  - unfold connect_loop, bind, get, py_mod, getitem, modify, logger, emit, ret, raise.
    case_bool_decide; [exists (_url self), (_count self); frame_here self|]. cbn.
    destruct (py_index _ _) as [url|]; cbn;
      [exists (Some url), (_count self) | exists (_url self), (_count self)];
      frame_here self.
  - cbn [connect_loop].
    unfold bind, get, py_mod, getitem, modify, logger, emit, ret, raise,
      _delay_before_reconnect, time_sleep, bind, get, modify, logger, emit.
    case_bool_decide; [exists (_url self), (_count self); frame_here self|].
    cbn. destruct (py_index _ _) as [url|];
      [| exists (_url self), (_count self); frame_here self].
    cbn. destruct o as [c|e]; cbn;
      [exists (Some url), (_count self); frame_here self|].
    destruct (bool_decide (AMQPConnectionError ∈ e)); cbn;
      [| exists (Some url), (_count self); frame_here self].
    case_bool_decide; cbn;
      [exists (Some url), (_count self); frame_here self|].
    destruct (IH (set_count (_count self + 1) (set_url (Some url) self)))
      as (u & n & Hs & Hn).
    destruct (connect_loop adapter N rest _) as [[t s] r].
    cbn in Hs, Hn |- *. exists u, n. split; [| lia].
    rewrite Hs. by destruct self.
Qed.

(** X8.  [connect] changes nothing of the consumer but [_url] and
    [_count], and [_count] never goes down, for every behaviour of the
    connection constructor and every consumer (an empty URL list and a
    raised exception included): the URL list, the closing flag, the
    connection and the channel are as before. *)
Theorem connect_frame (script : list new_connection_outcome) (self : AsyncConsumer) :
  ∃ u n, state_of (connect script self) = set_url u (set_count n self)
         ∧ _count self ≤ n.
Proof. rewrite connect_dispatch. apply connect_loop_frame. Qed.

Section connect_outcome_facts.

Context (adapter : conn_adapter).

(** Failed rounds, then the rest of the script from the counter they
    leave. *)
Lemma connect_loop_failures_then (fails tail : list new_connection_outcome) :
  ∀ self : AsyncConsumer,
    _rabbit_urls self ≠ [] →
    0 ≤ _count self →
    forallb connection_error fails = true →
    let K := Z.of_nat (length fails) in
    let N := Z.of_nat (length (_rabbit_urls self)) in
    ∃ pre u,
      let self' := set_count (_count self + K) (set_url u self) in
      let r := connect_loop adapter N tail self' in
      connect_loop adapter N (fails ++ tail) self
      = (pre ++ trace_of r, state_of r, result_of r)
      ∧ retry_events pre = seqZ (_count self) K ≫= λ i, [Attempt; Slept i].
Proof.
  induction fails as [|o rest IH]; intros self Hne Hc Hall K N.
  - exists [], (_url self). cbn. subst K. cbn. rewrite Z.add_0_r.
    replace (set_count _ _) with self by (by destruct self).
    split; [by destruct (connect_loop _ _ tail self) as [[??]?] | done].
  - destruct (py_index_server_choice _ (_count self) Hne) as [_ [u Hu]].
    cbn [forallb] in Hall. apply andb_prop in Hall as [Ho Hall].
    destruct o as [c|e]; [done|]. cbn in Ho.
    cbn [app]. subst N.
    rewrite (connect_loop_failed adapter self u e (rest ++ tail) Hu Hne Ho Hc).
    set (self1 := set_count (_count self + 1) (set_url (Some u) self)).
    destruct (IH self1) as (pre & u' & Hrun & Hev); [done | cbn; lia | done |].
    change (_rabbit_urls self1) with (_rabbit_urls self) in *.
    change (_count self1) with (_count self + 1) in *.
    cbv zeta in Hrun |- *. rewrite Hrun.
    eexists (_ ++ pre), u'. cbn [trace_of state_of result_of fst snd].
    replace (set_count (_count self + K) (set_url u' self))
      with (set_count (_count self + 1 + Z.of_nat (length rest)) (set_url u' self1)).
    2: { subst K self1. destruct self. unfold set_count, set_url. cbn. f_equal. lia. }
    split; [by rewrite <- app_assoc|].
    unfold retry_events in *. rewrite omap_app, Hev. cbn.
    subst K. rewrite (seqZ_cons (_count self)) by (cbn [length]; lia). cbn.
    by replace (Z.pred (Z.of_nat (S (length rest)))) with (Z.of_nat (length rest)) by lia.
Qed.

(** The loop ends at the first constructor call that does not raise an
    AMQPConnectionError, with what that call does. *)
Lemma connect_loop_decided (self : AsyncConsumer)
    (fails rest : list new_connection_outcome) (o : new_connection_outcome) :
  _rabbit_urls self ≠ [] →
  0 ≤ _count self →
  forallb connection_error fails = true →
  connection_error o = false →
  let K := Z.of_nat (length fails) in
  let r := connect_loop adapter (Z.of_nat (length (_rabbit_urls self)))
             (fails ++ o :: rest) self in
  result_of r = match o with
                | Opened c => Ok (Some c)
                | OpenRaises e => Raise e
                end
  ∧ retry_events (trace_of r)
    = (seqZ (_count self) K ≫= λ i, [Attempt; Slept i]) ++ [Attempt]
  ∧ _count (state_of r) = _count self + K
  ∧ _url (state_of r) = endpoint_at (_rabbit_urls self) (_count self + K).
Proof.
  intros Hne Hc Hall Ho K r. subst r.
  destruct (connect_loop_failures_then fails (o :: rest) self Hne Hc Hall)
    as (pre & u & Hrun & Hev).
  cbv zeta in Hrun. rewrite Hrun. clear Hrun. fold K.
  set (self' := set_count (_count self + K) (set_url u self)).
  destruct (py_index_server_choice (_rabbit_urls self) (_count self') ltac:(done))
    as [Hi [u' Hu']].
  change (_count self') with (_count self + K) in *.
  cbn [connect_loop]. unfold bind, get, py_mod, getitem.
  rewrite bool_decide_false by (destruct (_rabbit_urls self); simpl; [done | lia]).
  cbn. rewrite Hi, Hu'. destruct o as [c|e]; cbn in Ho |- *; rewrite ?Ho; cbn.
  all: split_and!; [done | | done | done].
  all: unfold retry_events in *; rewrite omap_app, Hev; done.
Qed.

End connect_outcome_facts.

(** X9.  [connect] is decided by the first constructor call that does
    not raise an AMQPConnectionError: after K such failures it returns
    the connection that call gives, or lets the exception that call
    raises through.  Either way it has slept after each of the K
    failures and not after the deciding call, the counter has gone up
    by K (it is not reset here), and [_url] is the endpoint of the
    deciding attempt. *)
Theorem connect_outcome (self : AsyncConsumer)
    (fails rest : list new_connection_outcome) (o : new_connection_outcome) :
  _rabbit_urls self ≠ [] →
  0 ≤ _count self →
  forallb connection_error fails = true →
  connection_error o = false →
  let K := Z.of_nat (length fails) in
  let r := connect (fails ++ o :: rest) self in
  result_of r = match o with
                | Opened c => Ok (Some c)
                | OpenRaises e => Raise e
                end
  ∧ retry_events (trace_of r)
    = (seqZ (_count self) K ≫= λ i, [Attempt; Slept i]) ++ [Attempt]
  ∧ _count (state_of r) = _count self + K
  ∧ _url (state_of r) = endpoint_at (_rabbit_urls self) (_count self + K).
Proof.
  intros Hne Hc Hall Ho. cbv zeta. rewrite connect_dispatch.
  by apply connect_loop_decided.
Qed.

Lemma connect_outcome_witness :
  result_of (connect one_failure_then_error two_urls_consumer) = Raise [ValueError].
Proof.
  refine (proj1 (connect_outcome two_urls_consumer [OpenRaises [AMQPConnectionError]]
                   [] (OpenRaises [ValueError]) _ _ _ _));
    [done | done | reflexivity | reflexivity].
Defined.

(** X10.  A consumer fresh from the constructor, of any class and with
    a non-empty URL list, makes its first connection attempt to the
    first URL of the list, with the adapter of its class
    (SelectConnection for AsyncConsumer, TornadoConnection for the
    other two), and does nothing else before that call. *)
Theorem fresh_consumer_first_endpoint (k : consumer_class) (durable_queue : bool)
    (exchange exchange_type rabbit_queue u : string) (urls : list string) :
  let self := AsyncConsumer_init k durable_queue exchange exchange_type
                rabbit_queue (u :: urls) in
  effect_calls (trace_of (connect [] self)) = [ENewConnection (class_adapter k) u]
  ∧ _url (state_of (connect [] self)) = Some u.
Proof.
  cbv zeta. rewrite connect_dispatch.
  set (self := AsyncConsumer_init _ _ _ _ _ _).
  assert (endpoint_at (_rabbit_urls self) (_count self) = Some u) as Hu.
  { unfold endpoint_at. cbn [self AsyncConsumer_init _count _rabbit_urls].
    replace (1 - 1) with 0 by lia. rewrite Z.mod_0_l by (cbn [length]; lia).
    reflexivity. }
  rewrite (connect_loop_pending _ self u Hu ltac:(done)). done.
Qed.

Lemma connect_decided_opened (self : AsyncConsumer)
    (fails rest : list new_connection_outcome) (c : connection) :
  _rabbit_urls self ≠ [] →
  0 ≤ _count self →
  forallb connection_error fails = true →
  let K := Z.of_nat (length fails) in
  let r := connect (fails ++ Opened c :: rest) self in
  result_of r = Ok (Some c)
  ∧ retry_events (trace_of r)
    = (seqZ (_count self) K ≫= λ i, [Attempt; Slept i]) ++ [Attempt]
  ∧ _count (state_of r) = _count self + K.
Proof.
  intros Hne Hc Hall. cbv zeta. rewrite connect_dispatch.
  destruct (connect_loop_decided (class_adapter (cls self)) self fails rest
              (Opened c) Hne Hc Hall eq_refl) as (Hr & Hev & Hcnt & _).
  done.
Qed.

(** [reconnect] on a consumer that is closing: the sleep and the count
    are done, the connection is not. *)
Lemma reconnect_closing_run (self : AsyncConsumer)
    (script : list new_connection_outcome) :
  _closing self = true →
  0 ≤ _count self →
  let r := reconnect script self in
  retry_events (trace_of r) = [Slept (_count self)]
  ∧ state_of r = set_count (_count self + 1) self
  ∧ result_of r = Ok tt.
Proof.
  intros Hcl Hc. cbv zeta.
  unfold reconnect, _delay_before_reconnect, time_sleep, logger, bind, get,
    modify, emit.
  rewrite bool_decide_false by lia. cbn -[connect]. rewrite Hcl. cbn. done.
Qed.

Lemma base_trace_fmap (t : trace) : base_trace (Base <$> t) = t.
Proof. induction t as [|x t IH]; [done|]. cbn. f_equal. exact IH. Qed.

(** X11.  [reconnect] on a consumer that is not closing sleeps
    [_count] seconds, counts up, and connects; when the constructor
    gives a connection after K further failures, that connection is
    stored in [_connection], and the counter is K+1 higher than
    before. *)
Theorem reconnect_stores_connection (self : AsyncConsumer)
    (fails rest : list new_connection_outcome) (c : connection) :
  _closing self = false →
  _rabbit_urls self ≠ [] →
  0 ≤ _count self →
  forallb connection_error fails = true →
  let K := Z.of_nat (length fails) in
  let r := reconnect (fails ++ Opened c :: rest) self in
  result_of r = Ok tt
  ∧ _connection (state_of r) = Some c
  ∧ retry_events (trace_of r)
    = Slept (_count self)
        :: (seqZ (_count self + 1) K ≫= λ i, [Attempt; Slept i]) ++ [Attempt]
  ∧ _count (state_of r) = _count self + 1 + K.
Proof.
  intros Hcl Hne Hc Hall K r. subst r.
  set (self' := set_count (_count self + 1) self).
  destruct (connect_decided_opened self' fails rest c)
    as (Hr & Hev & Hcnt); [done | cbn; lia | done |].
  unfold reconnect, _delay_before_reconnect, time_sleep, logger, bind, get,
    modify, emit.
  rewrite bool_decide_false by lia. cbn -[connect]. rewrite Hcl. cbn -[connect].
  fold self'. destruct (connect _ self') as [[t s] res].
  cbn in Hr, Hcnt, Hev |- *. subst res. cbn.
  unfold retry_events in *. rewrite app_nil_r. cbn. rewrite Hev. done.
Qed.

Lemma reconnect_stores_connection_witness :
  _connection (state_of (reconnect one_failure_then_open two_urls_consumer))
  = Some 7.
Proof.
  refine (proj1 (proj2 (reconnect_stores_connection two_urls_consumer
                          [OpenRaises [AMQPConnectionError]] [] 7 _ _ _ _)));
    [reflexivity | done | done | reflexivity].
Defined.

Ltac unfold_life :=
  unfold stop, stop_consuming, on_cancelok, close_channel, on_consumer_cancelled,
    on_bindok, start_consuming, add_on_cancel_callback, on_queue_declareok,
    on_exchange_declareok, setup_queue, on_channel_open, setup_exchange,
    on_channel_closed, add_on_channel_close_callback, on_connection_closed,
    TornadoConsumer_on_connection_closed, AsyncConsumer_on_connection_closed,
    close_connection, TornadoConsumer_close_connection,
    AsyncConsumer_close_connection, the_connection, llogger, base, lbind, lget,
    lmodify, pika, lret, lraise, on_connection_open, open_channel, the_channel,
    logger, bind, get, modify, emit, ret, raise,
    events_of, lstate_of, lresult_of.

(** X12.  Channel setup, driven by pika's callbacks in order
    ([on_connection_open], [on_channel_open], [on_exchange_declareok],
    [on_queue_declareok], [on_bindok]), makes these calls and no other,
    in this order: open a channel; register the close callback; declare
    the configured exchange with its type; declare the configured queue
    with its durability; bind the queue to the exchange; register the
    cancel callback; set prefetch_count to 1; consume from the queue.
    It ends with the channel and the consumer tag stored and the retry
    counter at 1. *)
Theorem channel_setup_order (self : AsyncConsumer) (c : connection) (ch : channel)
    (tag : string) :
  _connection self = Some c →
  let r := (base on_connection_open;; on_channel_open ch;; on_exchange_declareok;;
            on_queue_declareok;; on_bindok tag)%life self in
  lresult_of r = Ok tt
  ∧ calls (events_of r)
    = [Base (EConnectionChannel c);
       Pika (PChannelAddOnCloseCallback ch);
       Pika (PExchangeDeclare ch (_exchange self) (_exchange_type self));
       Pika (PQueueDeclare ch (_queue self) (_durable_queue self));
       Pika (PQueueBind ch (_queue self) (_exchange self));
       Pika (PChannelAddOnCancelCallback ch);
       Pika (PBasicQos ch 1);
       Pika (PBasicConsume ch (_queue self))]
  ∧ lstate_of r
    = set_consumer_tag (Some tag) (set_channel (Some ch) (set_count 1 self)).
Proof.
  intros Hc. destruct self. cbn in Hc. subst. cbv zeta. unfold_life. cbn. done.
Qed.

Lemma channel_setup_order_witness :
  lstate_of ((base on_connection_open;; on_channel_open 3;; on_exchange_declareok;;
              on_queue_declareok;; on_bindok "ctag1")%life connected)
  = set_consumer_tag (Some "ctag1") (set_channel (Some 3) (set_count 1 connected)).
Proof.
  refine (proj2 (proj2 (channel_setup_order connected 1 3 "ctag1" _))).
  reflexivity.
Defined.

(** X13.  Deliberate shutdown, driven by pika's callbacks in order
    ([stop], [on_cancelok], [on_channel_closed], [on_connection_closed]):
    the consumer cancels its subscription with the stored consumer tag,
    closes the channel, closes the connection (a TornadoConsumer or
    MessageConsumer only if the connection is not already closing or
    closed), and stops the ioloop.  It makes no connection attempt and
    no sleep, whatever the broker would answer, and ends with the
    closing flag set and no channel. *)
Theorem shutdown_chain (self : AsyncConsumer) (c : connection) (ch : channel)
    (st : connection_state) (script : list new_connection_outcome) :
  _connection self = Some c →
  _channel self = Some ch →
  let r := (stop;; on_cancelok;; on_channel_closed st;;
            on_connection_closed script)%life self in
  lresult_of r = Ok tt
  ∧ calls (events_of r)
    = [Pika (PBasicCancel ch (_consumer_tag self)); Pika (PChannelClose ch)]
      ++ (if closes_connection (cls self) st then [Pika (PConnectionClose c)] else [])
      ++ [Pika (PIOLoopStop c)]
  ∧ lstate_of r = set_channel None (set_closing true self).
Proof.
  intros Hc Hch. destruct self as [k ? ? ? ? ? ? ? ? ? ? ?].
  cbn in Hc, Hch. subst. cbv zeta. unfold_life.
  cbn. destruct k, st; cbn; done.
Qed.

Lemma shutdown_chain_witness :
  calls (events_of ((stop;; on_cancelok;; on_channel_closed ConnClosing;;
                     on_connection_closed two_failures)%life
                      (super (consuming returns_normally publisher_up))))
  = [Pika (PBasicCancel 1 (Some "ctag1")); Pika (PChannelClose 1);
     Pika (PIOLoopStop 1)].
Proof.
  refine (proj1 (proj2 (shutdown_chain
                          (super (consuming returns_normally publisher_up))
                          1 1 ConnClosing two_failures _ _)));
    reflexivity.
Defined.

(** X14.  When the channel is closed, an AsyncConsumer closes the
    connection; a TornadoConsumer or MessageConsumer closes it only if
    it is neither closing nor closed, and otherwise makes no call at
    all.  The consumer itself is not changed. *)
Theorem channel_closed_closes_connection (self : AsyncConsumer) (c : connection)
    (st : connection_state) :
  _connection self = Some c →
  let r := on_channel_closed st self in
  lresult_of r = Ok tt
  ∧ lstate_of r = self
  ∧ calls (events_of r)
    = if closes_connection (cls self) st then [Pika (PConnectionClose c)] else [].
Proof.
  intros Hc. destruct self as [k ? ? ? ? ? ? ? ? ? ? ?]. cbn in Hc. subst.
  cbv zeta. unfold_life. cbn. destruct k, st; cbn; done.
Qed.

Lemma channel_closed_closes_connection_witness :
  calls (events_of (on_channel_closed ConnClosed
                      (super (consuming returns_normally publisher_up))))
  = [].
Proof.
  refine (proj2 (proj2 (channel_closed_closes_connection
                          (super (consuming returns_normally publisher_up))
                          1 ConnClosed _))).
  reflexivity.
Defined.

(** X15.  A connection lost while a TornadoConsumer or MessageConsumer
    is not closing: the channel is forgotten and [reconnect] is
    scheduled on the ioloop 3 seconds later; nothing is slept, no
    connection is attempted and the retry counter is not touched in
    the handler itself. *)
Theorem unexpected_close_tornado (self : AsyncConsumer) (c : connection)
    (script : list new_connection_outcome) :
  cls self ≠ CAsyncConsumer →
  _closing self = false →
  _connection self = Some c →
  let r := on_connection_closed script self in
  lresult_of r = Ok tt
  ∧ calls (events_of r) = [Pika (PIOLoopCallLater c 3)]
  ∧ lstate_of r = set_channel None self.
Proof.
  intros Hk Hcl Hc. destruct self as [k ? ? ? ? ? ? ? ? ? ? ?].
  cbn in Hk, Hcl, Hc. subst. cbv zeta.
  unfold_life. cbn. destruct k; cbn; done.
Qed.

Lemma unexpected_close_tornado_witness :
  calls (events_of (on_connection_closed two_failures
                      (super (consuming returns_normally publisher_up))))
  = [Pika (PIOLoopCallLater 1 3)].
Proof.
  refine (proj1 (proj2 (unexpected_close_tornado
                          (super (consuming returns_normally publisher_up))
                          1 two_failures _ _ _)));
    [discriminate | reflexivity | reflexivity].
Defined.

(** X16.  A connection lost while a plain AsyncConsumer is not closing:
    the channel is forgotten and [reconnect] runs at once, inside the
    handler: it sleeps [_count] seconds, counts up and attempts to
    connect, backing off one more second after each failed attempt. *)
Theorem unexpected_close_async (self : AsyncConsumer)
    (script : list new_connection_outcome) :
  cls self = CAsyncConsumer →
  _closing self = false →
  _rabbit_urls self ≠ [] →
  0 ≤ _count self →
  forallb connection_error script = true →
  let K := Z.of_nat (length script) in
  let r := on_connection_closed script self in
  retry_events (base_trace (events_of r))
  = Slept (_count self)
      :: (seqZ (_count self + 1) K ≫= λ i, [Attempt; Slept i]) ++ [Attempt]
  ∧ _channel (lstate_of r) = None
  ∧ _count (lstate_of r) = _count self + 1 + K.
Proof.
  intros Hk Hcl Hne Hc Hall K r. subst r.
  destruct (on_connection_open_error_backoff (set_channel None self) script)
    as (Hev & Hcnt); [done..|].
  unfold on_connection_closed, AsyncConsumer_on_connection_closed, lbind, lget,
    lmodify, llogger, base, events_of, lstate_of.
  rewrite Hk. cbn -[reconnect]. rewrite Hcl. cbn -[reconnect].
  unfold on_connection_open_error, bind, logger, emit in Hev, Hcnt.
  cbn -[reconnect] in Hev, Hcnt.
  assert (_channel (state_of (reconnect script (set_channel None self))) = None)
    as Hchan.
  { unfold reconnect, _delay_before_reconnect, time_sleep, logger, bind, get,
      modify, emit.
    rewrite bool_decide_false by (cbn; lia). cbn -[connect]. rewrite Hcl.
    cbn -[connect].
    match goal with
    | |- context [connect script ?s0] =>
        rewrite (connect_dispatch script s0);
        destruct (connect_loop_frame (class_adapter (cls s0))
                    (Z.of_nat (length (_rabbit_urls s0))) script s0)
          as (u & n & Hs & _);
        destruct (connect_loop (class_adapter (cls s0))
                    (Z.of_nat (length (_rabbit_urls s0))) script s0)
          as [[t s] res]
    end.
    cbn in Hs |- *. subst s. destruct res as [[c|]|e]; by destruct self. }
  destruct (reconnect script (set_channel None self)) as [[t s] res].
  cbn in *. rewrite base_trace_fmap. done.
Qed.

Lemma unexpected_close_async_witness :
  retry_events (base_trace (events_of (on_connection_closed two_failures
                                         two_urls_consumer)))
  = [Slept 1; Attempt; Slept 2; Attempt; Slept 3; Attempt].
Proof.
  refine (proj1 (unexpected_close_async two_urls_consumer two_failures _ _ _ _ _));
    [reflexivity | reflexivity | done | done | reflexivity].
Defined.

(** X17.  Without a channel, the channel steps that use it unguarded
    (declaring the exchange or the queue, binding, registering the
    close and cancel callbacks, starting to consume, closing the
    channel, and the callbacks that lead to them) raise AttributeError
    before any call to pika and leave the consumer unchanged, while
    [stop_consuming] and [on_consumer_cancelled], which test the channel
    first, return normally and do nothing. *)
Theorem channel_steps_without_channel (self : AsyncConsumer) (name tag : string) :
  _channel self = None →
  (∀ m : L AsyncConsumer unit,
     m ∈ [setup_exchange name; setup_queue name; on_exchange_declareok;
          on_queue_declareok; start_consuming tag; on_bindok tag; close_channel;
          on_cancelok; add_on_channel_close_callback; add_on_cancel_callback] →
     lresult_of (m self) = Raise [AttributeError]
     ∧ calls (events_of (m self)) = []
     ∧ lstate_of (m self) = self)
  ∧ (∀ m : L AsyncConsumer unit,
       m ∈ [stop_consuming; on_consumer_cancelled] →
       lresult_of (m self) = Ok tt
       ∧ calls (events_of (m self)) = []
       ∧ lstate_of (m self) = self).
Proof.
  intros Hch. destruct self. cbn in Hch. subst.
  split; intros m Hm; repeat (apply elem_of_cons in Hm as [->|Hm]);
    try (by apply elem_of_nil in Hm); unfold_life; cbn; done.
Qed.

Lemma channel_steps_without_channel_witness :
  lresult_of (start_consuming "ctag1" connected) = Raise [AttributeError].
Proof.
  refine (proj1 (proj1 (channel_steps_without_channel connected "q" "ctag1" _)
                   (start_consuming "ctag1") _)).
  - reflexivity.
  - do 4 apply list_elem_of_further. apply list_elem_of_here.
Defined.

(** X18.  After [stop], [reconnect] never opens a connection: it still
    sleeps [_count] seconds once, and then finds the closing flag set,
    so no connection attempt is made and [_connection] is what it was.
    This holds whether or not the consumer held a channel when [stop]
    was called. *)
Theorem stop_prevents_reconnect (self : AsyncConsumer)
    (script : list new_connection_outcome) :
  0 ≤ _count self →
  let r := (stop;; base (reconnect script))%life self in
  lresult_of r = Ok tt
  ∧ retry_events (base_trace (events_of r)) = [Slept (_count self)]
  ∧ _closing (lstate_of r) = true
  ∧ _connection (lstate_of r) = _connection self.
Proof.
  intros Hc.
  destruct (reconnect_closing_run (set_closing true self) script)
    as (Hev & Hst & Hr); [done..|].
  cbv zeta. unfold stop, stop_consuming, lbind, lget, lmodify, llogger, base, pika,
    lret, logger, emit, events_of, lstate_of, lresult_of.
  cbn -[reconnect].
  destruct (_channel self); cbn -[reconnect];
    destruct (reconnect script (set_closing true self)) as [[t s] res];
    cbn in *; subst; rewrite ?base_trace_fmap; done.
Qed.

Lemma stop_prevents_reconnect_witness :
  retry_events (base_trace (events_of
     ((stop;; base (reconnect one_failure_then_open))%life two_urls_consumer)))
  = [Slept 1].
Proof.
  refine (proj1 (proj2 (stop_prevents_reconnect two_urls_consumer
                          one_failure_then_open _))).
  done.
Defined.

(** X19.  [run] connects, retrying with back-off while the constructor
    raises AMQPConnectionError; once it gives a connection, [run]
    stores it and starts its ioloop, and that is the only pika call of
    this layer and the last thing [run] does. *)
Theorem run_starts_ioloop (self : AsyncConsumer)
    (fails rest : list new_connection_outcome) (c : connection) :
  _rabbit_urls self ≠ [] →
  0 ≤ _count self →
  forallb connection_error fails = true →
  let K := Z.of_nat (length fails) in
  let r := run (fails ++ Opened c :: rest) self in
  lresult_of r = Ok tt
  ∧ _connection (lstate_of r) = Some c
  ∧ last (events_of r) = Some (Pika (PIOLoopStart c))
  ∧ List.filter is_pika (events_of r) = [Pika (PIOLoopStart c)]
  ∧ retry_events (base_trace (events_of r))
    = (seqZ (_count self) K ≫= λ i, [Attempt; Slept i]) ++ [Attempt].
Proof.
  intros Hne Hc Hall K r. subst r.
  destruct (connect_decided_opened self fails rest c Hne Hc Hall)
    as (Hr & Hev & _).
  unfold run, lbind, lget, lmodify, llogger, base, pika, lret, the_connection,
    logger, emit, events_of, lstate_of, lresult_of.
  destruct (connect _ self) as [[t s] res]. cbn in Hr, Hev |- *. subst res. cbn.
  split_and!; [done | done | | |].
  - by rewrite last_cons, last_snoc.
  - rewrite List.filter_app. cbn.
    replace (List.filter _ (Base <$> t)) with (@nil event); [done|].
    clear. induction t as [|x t IH]; [done|]. cbn. exact IH.
  - unfold base_trace. rewrite omap_app. cbn. rewrite app_nil_r.
    fold (base_trace (Base <$> t)). by rewrite base_trace_fmap.
Qed.

Lemma run_starts_ioloop_witness :
  last (events_of (run one_failure_then_open two_urls_consumer))
  = Some (Pika (PIOLoopStart 7)).
Proof.
  refine (proj1 (proj2 (proj2 (run_starts_ioloop two_urls_consumer
                                 [OpenRaises [AMQPConnectionError]] [] 7 _ _ _))));
    [done | done | reflexivity].
Defined.
